(** * The Excel pre-commit hook ([.githooks/pre-commit.py]) in Rocq

    A shallow embedding of the hook script: the discovery filter, the macro
    extractor [parse_vba], the report generator [generate_text_reports] and
    the orchestrator (the [__main__] block), followed by the properties of
    the program.

    Conventions of the embedding.
    - A Python [str] is a [string]; its characters are the code points
      below 256.
    - The working directory is a list of named entries, in the order the
      operating system lists them; an entry is a regular file with its
      content or a directory with its own entries.  An entry name is one
      path component (it holds no separator).
    - Code that raises returns [Raise e]; the filesystem and the console
      are threaded through a state monad, and the state reached when an
      exception escapes is kept, as on a real run.
    - [oletools] and [openpyxl] are not part of the script: the two entry
      points the script calls, [VBA_Parser] and [load_workbook], are
      variables of the sections below, functions of the content of the
      file they open, in one run of the interpreter.  Their objects are
      records of the attributes the script reads; an object that the
      script prints and whose class has no [__str__] of its own carries
      the address it has in that run. *)

From Stdlib Require Import List String Ascii ZArith Bool Lia DecimalString.
From Stdlib Require HexadecimalString.
Import ListNotations.
Local Open Scope string_scope.
Local Open Scope list_scope.

(** ** Python strings *)

Module PyStr.

(** [s.startswith(p)] *)
Definition startswith (s p : string) : bool := String.prefix p s.

(** [s.endswith(p)] *)
Definition endswith (s p : string) : bool :=
  let n := String.length s in
  let m := String.length p in
  if Nat.ltb n m then false
  else String.eqb (String.substring (n - m) m s) p.

(** [s.endswith(t)] for a tuple [t] of suffixes *)
Definition endswith_any (s : string) (t : list string) : bool :=
  existsb (endswith s) t.

(** [p in s] *)
Fixpoint contains (p s : string) : bool :=
  String.prefix p s ||
  match s with
  | EmptyString => false
  | String _ rest => contains p rest
  end.

(** [sep.join(l)] *)
Fixpoint join (sep : string) (l : list string) : string :=
  match l with
  | [] => ""
  | [x] => x
  | x :: tl => x ++ sep ++ join sep tl
  end.

(** [c * n] for a one-character string *)
Fixpoint repeat (c : string) (n : nat) : string :=
  match n with
  | O => ""
  | S k => c ++ repeat c k
  end.

Definition LF : ascii := ascii_of_nat 10.
Definition CR : ascii := ascii_of_nat 13.
Definition newline : string := String LF "".
Definition dquote : string := String (ascii_of_nat 34) "".

(** The line boundaries of [str.splitlines] among the code points below
    256: LF, VT, FF, CR, FS, GS, RS and NEL. *)
Definition is_line_boundary (c : ascii) : bool :=
  let n := nat_of_ascii c in
  existsb (Nat.eqb n) [10; 11; 12; 13; 28; 29; 30; 133]%nat.

(** [s.splitlines()]: [cur] is the line being read.  CR LF is one
    boundary, and no empty line is produced after a final boundary. *)
Fixpoint splitlines_from (cur s : string) : list string :=
  match s with
  | EmptyString => if String.eqb cur "" then [] else [cur]
  | String c rest =>
      if is_line_boundary c then
        match rest with
        | String c2 rest2 =>
            if Ascii.eqb c CR && Ascii.eqb c2 LF
            then cur :: splitlines_from "" rest2
            else cur :: splitlines_from "" rest
        | EmptyString => cur :: splitlines_from "" rest
        end
      else splitlines_from (cur ++ String c "") rest
  end.

Definition splitlines (s : string) : list string := splitlines_from "" s.

(** [s.rfind(c)] for a character [c]: the last index of [c], or -1. *)
Fixpoint rfind_from (c : ascii) (s : string) (i : Z) (found : Z) : Z :=
  match s with
  | EmptyString => found
  | String d rest =>
      rfind_from c rest (i + 1) (if Ascii.eqb d c then i else found)
  end.

Definition rfind (c : ascii) (s : string) : Z := rfind_from c s 0 (-1).

(** [s[:i]] for [0 <= i] *)
Definition take (i : Z) (s : string) : string :=
  String.substring 0 (Z.to_nat i) s.

(** [s[i:i+1]] *)
Definition char_at (i : Z) (s : string) : string :=
  if (i <? 0)%Z then "" else String.substring (Z.to_nat i) 1 s.

End PyStr.

(** ** [os.path] *)

Module OsPath.

Definition sep : string := "/".

(** [posixpath.join(a, b)] *)
Definition join (a b : string) : string :=
  if PyStr.startswith b sep then b
  else if String.eqb a "" || PyStr.endswith a sep then a ++ b
  else a ++ sep ++ b.

(** The loop of [genericpath._splitext] that skips the leading dots of
    the file name: [Some root] as soon as a character other than a dot
    is met before the last dot. *)
Fixpoint skip_leading_dots (fuel : nat) (p : string) (filenameIndex dotIndex : Z)
  : option string :=
  match fuel with
  | O => None
  | S k =>
      if (filenameIndex <? dotIndex)%Z then
        if negb (String.eqb (PyStr.char_at filenameIndex p) ".")
        then Some (PyStr.take dotIndex p)
        else skip_leading_dots k p (filenameIndex + 1) dotIndex
      else None
  end.

(** [os.path.splitext(p)[0]] *)
Definition splitext_root (p : string) : string :=
  let sepIndex := PyStr.rfind "/"%char p in
  let dotIndex := PyStr.rfind "."%char p in
  if (sepIndex <? dotIndex)%Z then
    match skip_leading_dots (String.length p) p (sepIndex + 1) dotIndex with
    | Some root => root
    | None => p
    end
  else p.

End OsPath.

(** ** The constants of the script *)

Definition EXCEL_FILE_EXTENSIONS : list string :=
  ["xlsb"; "xls"; "xlsm"; "xla"; "xlt"; "xlam"; "xlsx"].

Definition KEEP_NAME : bool := false.

(** The test of the discovery loop: [file.endswith(EXCEL_FILE_EXTENSIONS)]. *)
Definition is_excel_file (file : string) : bool :=
  PyStr.endswith_any file EXCEL_FILE_EXTENSIONS.

(** ** Python values *)

(** A [float] is known to the script through [str()] and truth only. *)
Record pyfloat := { float_str : string; float_nonzero : bool }.

(** An object of a class that defines [__str__] or [__repr__] (a date, a
    cell range, a conditional formatting rule): the text these give and
    the truth of the object. *)
Record pyobject := { obj_str : string; obj_truthy : bool }.

(** [PPlain] is an object of a class that defines none of [__str__],
    [__repr__], [__bool__] and [__len__], as [ArrayFormula] and
    [DataTableFormula] of [openpyxl]: the qualified name of its class and
    the address it has in the running interpreter. *)
Inductive pyval :=
| PNone
| PBool (b : bool)
| PInt (n : Z)
| PFloat (f : pyfloat)
| PStr (s : string)
| PObj (o : pyobject)
| PPlain (qualname : string) (address : N).

Inductive pyclass := Cls_NoneType | Cls_bool | Cls_int | Cls_float | Cls_str | Cls_other.

Definition pyclass_eqb (a b : pyclass) : bool :=
  match a, b with
  | Cls_NoneType, Cls_NoneType | Cls_bool, Cls_bool | Cls_int, Cls_int
  | Cls_float, Cls_float | Cls_str, Cls_str | Cls_other, Cls_other => true
  | _, _ => false
  end.

Definition type_of (v : pyval) : pyclass :=
  match v with
  | PNone => Cls_NoneType
  | PBool _ => Cls_bool
  | PInt _ => Cls_int
  | PFloat _ => Cls_float
  | PStr _ => Cls_str
  | PObj _ => Cls_other
  | PPlain _ _ => Cls_other
  end.

(** [issubclass(a, b)]: among the builtin classes above the one proper
    subclass is [bool], of [int]. *)
Definition issubclass (a b : pyclass) : bool :=
  pyclass_eqb a b ||
  match a, b with
  | Cls_bool, Cls_int => true
  | _, _ => false
  end.

(** [isinstance(v, c)] and [isinstance(v, (c1, ..., cn))] *)
Definition isinstance (v : pyval) (c : pyclass) : bool := issubclass (type_of v) c.
Definition isinstance_any (v : pyval) (cs : list pyclass) : bool :=
  existsb (isinstance v) cs.

(** [v is not None] *)
Definition is_not_None (v : pyval) : bool :=
  match v with PNone => false | _ => true end.

(** [bool(v)], the test of [if v:] *)
Definition truthy (v : pyval) : bool :=
  match v with
  | PNone => false
  | PBool b => b
  | PInt n => negb (n =? 0)%Z
  | PFloat f => float_nonzero f
  | PStr s => negb (String.eqb s "")
  | PObj o => obj_truthy o
  | PPlain _ _ => true
  end.

(** [object.__repr__]: the class and the address, in hexadecimal. *)
Definition default_repr (qualname : string) (address : N) : string :=
  "<" ++ qualname ++ " object at 0x"
      ++ HexadecimalString.NilEmpty.string_of_uint (N.to_hex_uint address) ++ ">".

(** [str(v)], what an f-string field [{v}] inserts *)
Definition py_str (v : pyval) : string :=
  match v with
  | PNone => "None"
  | PBool true => "True"
  | PBool false => "False"
  | PInt n => NilEmpty.string_of_int (Z.to_int n)
  | PFloat f => float_str f
  | PStr s => s
  | PObj o => obj_str o
  | PPlain qualname address => default_repr qualname address
  end.

(** ** Exceptions and results *)

Inductive exn :=
| FileNotFoundError
| FileExistsError
| NotADirectoryError
| IsADirectoryError
| KeyError (key : string)
| LibraryError (msg : string).

Inductive result (A : Type) :=
| Ok (a : A)
| Raise (e : exn).
Arguments Ok {A} a.
Arguments Raise {A} e.

(** ** The filesystem *)

#[warnings="-register-all"]
Inductive node :=
| File (content : string)
| Dir (entries : list (string * node)).

Definition entries := list (string * node).

Module Fs.

Fixpoint lookup (name : string) (es : entries) : option node :=
  match es with
  | [] => None
  | (k, n) :: tl => if String.eqb k name then Some n else lookup name tl
  end.

(** Every entry but those called [name]. *)
Definition remove (name : string) (es : entries) : entries :=
  filter (fun e => negb (String.eqb (fst e) name)) es.

(** Replace the entry called [name], or add it after the others. *)
Fixpoint set (name : string) (n : node) (es : entries) : entries :=
  match es with
  | [] => [(name, n)]
  | (k, m) :: tl =>
      if String.eqb k name then (k, n) :: tl else (k, m) :: set name n tl
  end.

Definition is_dir (n : node) : bool :=
  match n with Dir _ => true | File _ => false end.

Definition dirnames (es : entries) : list string :=
  map fst (filter (fun e => is_dir (snd e)) es).

Definition filenames (es : entries) : list string :=
  map fst (filter (fun e => negb (is_dir (snd e))) es).

(** [os.walk(top)], top-down: the directory itself, then each of its
    sub-directories in listing order.  An item is [(root, dirs, files)]. *)
Fixpoint walk_node (top : string) (n : node) {struct n}
  : list (string * list string * list string) :=
  match n with
  | File _ => []
  | Dir es =>
      (top, dirnames es, filenames es) ::
      flat_map (fun e => walk_node (OsPath.join top (fst e)) (snd e)) es
  end.

Definition walk (top : string) (es : entries)
  : list (string * list string * list string) :=
  walk_node top (Dir es).

(** The components of a path: [.] and empty components name the
    directory they are met in. *)
Fixpoint components_from (cur s : string) : list string :=
  match s with
  | EmptyString => [cur]
  | String c rest =>
      if Ascii.eqb c "/"%char then cur :: components_from "" rest
      else components_from (cur ++ String c "") rest
  end.

Definition components (path : string) : list string :=
  filter (fun c => negb (String.eqb c "" || String.eqb c "."))
         (components_from "" path).

Fixpoint resolve (comps : list string) (n : node) : result node :=
  match comps with
  | [] => Ok n
  | c :: rest =>
      match n with
      | File _ => Raise NotADirectoryError
      | Dir es =>
          match lookup c es with
          | Some child => resolve rest child
          | None => Raise FileNotFoundError
          end
      end
  end.

(** The content of the regular file at [path], as [open(path, 'rb')]
    followed by a read gives it. *)
Definition read (path : string) (cwd : entries) : result string :=
  match resolve (components path) (Dir cwd) with
  | Ok (File content) => Ok content
  | Ok (Dir _) => Raise IsADirectoryError
  | Raise e => Raise e
  end.

End Fs.

(** ** The state of a run and its monad *)

Record World := { cwd : entries; stdout : list string }.

Definition M (A : Type) : Type := World -> result A * World.

Definition ret {A} (a : A) : M A := fun w => (Ok a, w).

Definition raise {A} (e : exn) : M A := fun w => (Raise e, w).

Definition bind {A B} (m : M A) (k : A -> M B) : M B :=
  fun w =>
    match m w with
    | (Ok a, w') => k a w'
    | (Raise e, w') => (Raise e, w')
    end.

Declare Scope py_scope.
Delimit Scope py_scope with py.
Notation "x <- m ;; k" := (bind m (fun x => k))
  (at level 61, m at next level, right associativity) : py_scope.
Notation "m ;; k" := (bind m (fun _ => k))
  (at level 61, right associativity) : py_scope.
Local Open Scope py_scope.

(** What a pure computation returned or raised. *)
Definition lift {A} (r : result A) : M A := fun w => (r, w).

(** [for x in l: body(x)] *)
Fixpoint for_each {A} (l : list A) (body : A -> M unit) : M unit :=
  match l with
  | [] => ret tt
  | x :: tl => body x ;; for_each tl body
  end.

(** [print(line)] *)
Definition print (line : string) : M unit :=
  fun w => (Ok tt, {| cwd := cwd w; stdout := stdout w ++ [line] |}).

Definition with_cwd (w : World) (es : entries) : World :=
  {| cwd := es; stdout := stdout w |}.

(** The calls below take the name of an entry of the working directory,
    which is how the script uses them. *)

(** [os.path.exists(name)] *)
Definition path_exists (name : string) : M bool :=
  fun w => (Ok (match Fs.lookup name (cwd w) with Some _ => true | None => false end), w).

(** [shutil.rmtree(name)] *)
Definition rmtree (name : string) : M unit :=
  fun w =>
    match Fs.lookup name (cwd w) with
    | Some (Dir _) => (Ok tt, with_cwd w (Fs.remove name (cwd w)))
    | Some (File _) => (Raise NotADirectoryError, w)
    | None => (Raise FileNotFoundError, w)
    end.

(** [os.makedirs(name, exist_ok=True)] *)
Definition makedirs (name : string) : M unit :=
  fun w =>
    match Fs.lookup name (cwd w) with
    | Some (Dir _) => (Ok tt, w)
    | Some (File _) => (Raise FileExistsError, w)
    | None => (Ok tt, with_cwd w (Fs.set name (Dir []) (cwd w)))
    end.

(** [with open(os.path.join(dir, name), 'w') as f: f.write(content)] for a
    directory [dir] of the working directory and an entry name [name]:
    the file is created or truncated, then written.  [name] is taken as
    one path component: a name that holds a separator is resolved as a
    path by the operating system, which this definition does not do.  The
    report names of the script are made from entry names of the tree;
    the properties of [parse_vba], whose module names come from the
    parser, ask for names without separator where a file is written. *)
Definition open_write (dir name content : string) : M unit :=
  fun w =>
    match Fs.lookup dir (cwd w) with
    | Some (Dir es) =>
        match Fs.lookup name es with
        | Some (Dir _) => (Raise IsADirectoryError, w)
        | _ => (Ok tt, with_cwd w (Fs.set dir (Dir (Fs.set name (File content) es)) (cwd w)))
        end
    | Some (File _) => (Raise NotADirectoryError, w)
    | None => (Raise FileNotFoundError, w)
    end.

(** [os.walk(top)] of the working directory *)
Definition os_walk (top : string) : M (list (string * list string * list string)) :=
  fun w => (Ok (Fs.walk top (cwd w)), w).

(** Open the file at [path] and hand its content to a library. *)
Definition open_with {A} (library : string -> result A) (path : string) : M A :=
  fun w =>
    match Fs.read path (cwd w) with
    | Ok content => (library content, w)
    | Raise e => (Raise e, w)
    end.

(** ** The objects of [oletools] *)

(** A macro of [extract_all_macros()]: container, stream path, file name
    of the module and its source. *)
Definition vba_module : Type := string * string * string * string.

Record VBA_Parser_obj := {
  detect_vba_macros : bool;
  extract_all_macros : list vba_module
}.

(** ** The objects of [openpyxl] *)

Record Color := { rgb : pyval }.

Record Font := {
  font_name : pyval;
  font_size : pyval;
  font_bold : pyval;
  font_italic : pyval;
  font_color : option Color
}.

(** A pattern fill, the one kind of fill this model has: a gradient fill
    has no [start_color], and the script raises [AttributeError] on a
    cell that has one and a true value. *)
Record Fill := { start_color : option Color }.

Record Alignment := { horizontal : pyval }.

Record Hyperlink := { target : pyval }.

Record Cell := {
  coordinate : string;
  value : pyval;
  font : Font;
  fill : Fill;
  alignment : Alignment;
  number_format : pyval;
  hyperlink : option Hyperlink
}.

Record DataValidation := {
  sqref : pyval;
  formula1 : pyval;
  dv_type : pyval;
  operator : pyval
}.

(** A worksheet, the one kind of sheet this model has: a chart sheet has
    no [iter_rows], and the script raises [AttributeError] on a workbook
    that has one.  [conditional_formatting] lists each rule key with what
    indexing the collection by that key returns; [data_validations] is
    true when its [dataValidation] list is not empty. *)
Record Worksheet := {
  iter_rows : list (list Cell);
  conditional_formatting : list (pyval * pyval);
  merged_cells_ranges : list pyval;
  data_validations : list DataValidation
}.

(** [defined_names] lists each name with its [attr_text]; [sheets] lists
    each title with its sheet. *)
Record Workbook := {
  defined_names : list (string * pyval);
  sheets : list (string * Worksheet)
}.

Definition sheetnames (wb : Workbook) : list string := map fst (sheets wb).

Fixpoint find_sheet (name : string) (l : list (string * Worksheet)) : option Worksheet :=
  match l with
  | [] => None
  | (title, sheet) :: tl => if String.eqb title name then Some sheet else find_sheet name tl
  end.

(** [wb[sheet_name]] *)
Definition getitem (wb : Workbook) (sheet_name : string) : result Worksheet :=
  match find_sheet sheet_name (sheets wb) with
  | Some sheet => Ok sheet
  | None => Raise (KeyError sheet_name)
  end.

(** ** The seven reports *)

(** The dictionary [reports] has one key per category, the file name
    [{file_prefix}_{category}.txt]; it is indexed here by the category. *)
Inductive category :=
| Formulas_and_values
| Formatting
| Conditional_formatting
| Merged_cells
| Data_validations
| Hyperlinks
| Named_ranges.

(** The categories in the order the dictionary is built, which is the
    order its items are written in. *)
Definition categories : list category :=
  [Formulas_and_values; Formatting; Conditional_formatting; Merged_cells;
   Data_validations; Hyperlinks; Named_ranges].

Definition category_name (c : category) : string :=
  match c with
  | Formulas_and_values => "formulas_and_values"
  | Formatting => "formatting"
  | Conditional_formatting => "conditional_formatting"
  | Merged_cells => "merged_cells"
  | Data_validations => "data_validations"
  | Hyperlinks => "hyperlinks"
  | Named_ranges => "named_ranges"
  end.

Definition category_eqb (a b : category) : bool :=
  String.eqb (category_name a) (category_name b).

Definition report_filename (file_prefix : string) (c : category) : string :=
  file_prefix ++ "_" ++ category_name c ++ ".txt".

Definition Reports : Type := category -> list string.

Definition empty_reports : Reports := fun _ => [].

(** [reports[key].extend(section)] *)
Definition extend (reports : Reports) (key : category) (section : list string) : Reports :=
  fun c => if category_eqb c key then reports c ++ section else reports c.

(** [reports.items()] *)
Definition items (file_prefix : string) (reports : Reports) : list (string * list string) :=
  map (fun c => (report_filename file_prefix c, reports c)) categories.

(** [f"Sheet: {sheet_name}\n" + "-" * 40] *)
Definition sheet_header (sheet_name : string) : string :=
  "Sheet: " ++ sheet_name ++ PyStr.newline ++ PyStr.repeat "-" 40.

(** All the cells of [sheet.iter_rows()], row after row. *)
Definition cells (sheet : Worksheet) : list Cell := List.concat (iter_rows sheet).

(** The [if]/[elif] chain that names the type of a cell value. *)
Definition cell_type (v : pyval) : string :=
  if isinstance v Cls_str then "Text"
  else if isinstance_any v [Cls_int; Cls_float] then "Number"
  else if isinstance v Cls_bool then "Boolean"
  else "Other".

(** What one cell adds to the formulas-and-values section. *)
Definition formulas_cell_lines (cell : Cell) : list string :=
  if is_not_None (value cell) then
    [("Cell " ++ coordinate cell ++ ": Value='" ++ py_str (value cell)
       ++ "', Type='" ++ cell_type (value cell) ++ "'")%string]
  else [].

(** What one cell adds to the formatting section. *)
Definition formatting_cell_lines (cell : Cell) : list string :=
  if truthy (value cell) then
    [("Cell " ++ coordinate cell ++ ": Font='" ++ py_str (font_name (font cell))
       ++ "', Size=" ++ py_str (font_size (font cell)) ++ ", "
       ++ "Bold=" ++ py_str (font_bold (font cell))
       ++ ", Italic=" ++ py_str (font_italic (font cell)) ++ ", "
       ++ "Font Color="
       ++ match font_color (font cell) with
          | Some color => py_str (rgb color)
          | None => "None"
          end ++ ", "
       ++ "Fill Color="
       ++ match start_color (fill cell) with
          | Some color => py_str (rgb color)
          | None => "None"
          end ++ ", "
       ++ "Alignment=" ++ py_str (horizontal (alignment cell))
       ++ ", Number Format='" ++ py_str (number_format cell) ++ "'")%string]
  else [].

(** What one cell adds to the hyperlinks section. *)
Definition hyperlink_cell_lines (cell : Cell) : list string :=
  match hyperlink cell with
  | Some link =>
      [("Cell " ++ coordinate cell ++ ": Hyperlink='" ++ py_str (target link) ++ "'")%string]
  | None => []
  end.

Definition is_empty {A} (l : list A) : bool :=
  match l with [] => true | _ => false end.

(** The body of the loop over the sheets, once [sheet] and [eval_sheet]
    are bound. *)
Definition sheet_reports (reports : Reports)
    (sheet_name : string) (sheet eval_sheet : Worksheet) : Reports :=
  (* 1. Formulas & Values *)
  let formulas_section :=
    sheet_header sheet_name :: flat_map formulas_cell_lines (cells sheet) in
  let reports := extend reports Formulas_and_values formulas_section in
  (* 2. Formatting *)
  let formatting_section :=
    sheet_header sheet_name :: flat_map formatting_cell_lines (cells sheet) in
  let reports := extend reports Formatting formatting_section in
  (* 3. Conditional Formatting *)
  let conditional_section :=
    sheet_header sheet_name ::
    (if negb (is_empty (conditional_formatting sheet)) then
       map (fun rule => ("Rule: " ++ py_str (fst rule) ++ ", Applied to: " ++ py_str (snd rule))%string)
           (conditional_formatting sheet)
     else []) in
  let reports := extend reports Conditional_formatting conditional_section in
  (* 4. Merged Cells *)
  let merged_section :=
    sheet_header sheet_name ::
    map (fun merged_range => ("Merged Range: " ++ py_str merged_range)%string)
        (merged_cells_ranges sheet) in
  let reports := extend reports Merged_cells merged_section in
  (* 5. Data Validations *)
  let validations_section :=
    sheet_header sheet_name ::
    (if negb (is_empty (data_validations sheet)) then
       map (fun dv => ("Range: " ++ py_str (sqref dv) ++ ", Formula: " ++ py_str (formula1 dv)
                      ++ ", Allow Type: " ++ py_str (dv_type dv)
                      ++ ", Criteria: " ++ py_str (operator dv))%string)
           (data_validations sheet)
     else []) in
  let reports := extend reports Data_validations validations_section in
  (* 6. Hyperlinks *)
  let hyperlinks_section :=
    sheet_header sheet_name :: flat_map hyperlink_cell_lines (cells sheet) in
  extend reports Hyperlinks hyperlinks_section.

(** [for sheet_name in workbook.sheetnames: ...] *)
Fixpoint for_sheets (workbook eval_workbook : Workbook)
    (names : list string) (reports : Reports) : result Reports :=
  match names with
  | [] => Ok reports
  | sheet_name :: tl =>
      match getitem workbook sheet_name with
      | Raise e => Raise e
      | Ok sheet =>
          match getitem eval_workbook sheet_name with
          | Raise e => Raise e
          | Ok eval_sheet =>
              for_sheets workbook eval_workbook tl
                (sheet_reports reports sheet_name sheet eval_sheet)
          end
      end
  end.

(** The part of [generate_text_reports] between the two [load_workbook]
    calls and the writing of the files. *)
Definition build_reports (workbook eval_workbook : Workbook)
  : result Reports :=
  let reports := empty_reports in
  (* Track Named Ranges *)
  let named_ranges_section :=
    ("Workbook Named Ranges" ++ PyStr.newline ++ PyStr.repeat "-" 40)%string ::
    map (fun d => ("Name: " ++ fst d ++ ", Refers To: " ++ py_str (snd d))%string)
        (defined_names workbook) in
  let reports := extend reports Named_ranges named_ranges_section in
  for_sheets workbook eval_workbook (sheetnames workbook) reports.

(** ** The script *)

Section Hook.

(** [VBA_Parser(path)] and [load_workbook(path, data_only=...)] as
    functions of the content of the file at [path], in one run of the
    interpreter: the addresses of the objects they return are those of
    that run. *)
Variable VBA_Parser : string -> result VBA_Parser_obj.
Variable load_workbook : string -> bool -> result Workbook.

(** The condition of the list comprehension of [parse_vba]. *)
Definition keep_line (line : string) : bool :=
  negb (PyStr.startswith line "Attribute")
  || (PyStr.contains "VB_Name" line && KEEP_NAME).

Definition content_filtered (content : string) : list string :=
  filter keep_line (PyStr.splitlines content).

Definition parse_vba (workbook_path file_prefix : string) : M unit :=
  let vba_path := "src.vba" in
  vba_parser <- open_with VBA_Parser workbook_path ;;
  let vba_modules :=
    if detect_vba_macros vba_parser then extract_all_macros vba_parser else [] in
  for_each vba_modules (fun m =>
    let '(_, _, filename, content) := m in
    let filtered := content_filtered content in
    if negb (is_empty filtered) then
      makedirs vba_path ;;
      open_write vba_path (file_prefix ++ "_" ++ filename)
                 (PyStr.join PyStr.newline filtered)
    else ret tt).

Definition generate_text_reports (workbook_path file_prefix : string) : M unit :=
  let report_path := "excel_reports" in
  makedirs report_path ;;
  workbook <- open_with (fun c => load_workbook c false) workbook_path ;;
  eval_workbook <- open_with (fun c => load_workbook c true) workbook_path ;;
  reports <- lift (build_reports workbook eval_workbook) ;;
  for_each (items file_prefix reports) (fun item =>
    open_write report_path (fst item)
               (PyStr.join PyStr.newline (snd item) ++ PyStr.newline)) ;;
  print ("Reports for " ++ file_prefix ++ " saved in '" ++ report_path ++ "' folder.").

(** The body of the two loops of the [__main__] block, for one file. *)
Definition process_file (root file : string) : M unit :=
  if is_excel_file file then
    let file_path := OsPath.join root file in
    let file_prefix := OsPath.splitext_root file in
    print ("Processing: " ++ file_path) ;;
    parse_vba file_path file_prefix ;;
    generate_text_reports file_path file_prefix
  else ret tt.

(** The [__main__] block.  [os.walk] lists a directory when the loop
    reaches it; the loop body writes under [src.vba] and
    [excel_reports] only, both absent when the working directory is
    listed, so the walk is the one of the tree as it is before the
    loop. *)
Definition main : M unit :=
  (b <- path_exists "src.vba" ;; if b then rmtree "src.vba" else ret tt) ;;
  (b <- path_exists "excel_reports" ;; if b then rmtree "excel_reports" else ret tt) ;;
  walked <- os_walk "." ;;
  for_each walked (fun item =>
    let '(root, _, files) := item in
    for_each files (process_file root)).

(** A run of the hook in the working directory [es]. *)
Definition run (es : entries) : result unit * World :=
  main {| cwd := es; stdout := [] |}.

End Hook.

(** * Definitions for the properties *)

(** ** Sample cells, workbooks and parsers *)

(** A cell with the default style of a new workbook. *)
Definition plain_cell (coord : string) (v : pyval) : Cell :=
  {| coordinate := coord;
     value := v;
     font := {| font_name := PStr "Calibri";
                font_size := PFloat {| float_str := "11.0"; float_nonzero := true |};
                font_bold := PBool false;
                font_italic := PBool false;
                font_color := None |};
     fill := {| start_color := Some {| rgb := PStr "00000000" |} |};
     alignment := {| horizontal := PNone |};
     number_format := PStr "General";
     hyperlink := None |}.

(** The only line of the module of C5. *)
Definition attribute_vb_name_line : string :=
  "Attribute VB_Name = " ++ PyStr.dquote ++ "Module1" ++ PyStr.dquote.

(** A working directory with one workbook, and parsers for it. *)
Definition one_workbook : World :=
  {| cwd := [("book.xlsm", File "PK")]; stdout := [] |}.

Definition parser_without_macros (content : string) : result VBA_Parser_obj :=
  Ok {| detect_vba_macros := false; extract_all_macros := [] |}.

Definition parser_with_modules (sources : list string) (content : string)
  : result VBA_Parser_obj :=
  Ok {| detect_vba_macros := true;
        extract_all_macros :=
          map (fun src => ("book.xlsm", "VBA/Module1", "Module1.bas", src)) sources |}.

(** ** The formulas-and-values report from one view *)

(** The formulas-and-values report as it would read were all its cells
    taken from the one workbook [view]: for each sheet name the header,
    then a line per cell of that sheet of [view] that is not [None].  The
    specification says [view] is the workbook loaded with
    [data_only=True]. *)
Definition formulas_and_values_of_view (view : Workbook) (names : list string)
  : list string :=
  flat_map (fun sheet_name =>
              match getitem view sheet_name with
              | Ok sheet =>
                  sheet_header sheet_name :: flat_map formulas_cell_lines (cells sheet)
              | Raise _ => []
              end) names.

(** The formulas-and-values lines of [generate_text_reports], when the
    reports are built. *)
Definition formulas_report (workbook eval_workbook : Workbook) : option (list string) :=
  match build_reports workbook eval_workbook with
  | Ok reports => Some (reports Formulas_and_values)
  | Raise _ => None
  end.

(** A workbook whose cell A1 of Sheet1 holds [v]. *)
Definition workbook_with_A1 (v : pyval) : Workbook :=
  {| defined_names := [];
     sheets := [("Sheet1",
                 {| iter_rows := [[plain_cell "A1" v]];
                    conditional_formatting := [];
                    merged_cells_ranges := [];
                    data_validations := [] |})] |}.

(** [load_workbook] for a file whose cell A1 holds the formula [=1+2],
    last computed as 3. *)
Definition load_formula_workbook (content : string) (data_only : bool) : result Workbook :=
  if data_only then Ok (workbook_with_A1 (PInt 3))
  else Ok (workbook_with_A1 (PStr "=1+2")).

(** ** What a run leaves alone *)

(** The working directory without the two output directories. *)
Definition outputs_removed (es : entries) : entries :=
  Fs.remove "excel_reports" (Fs.remove "src.vba" es).

(** No regular file is called [name]. *)
Definition not_a_file (name : string) (es : entries) : bool :=
  match Fs.lookup name es with
  | Some (File _) => false
  | _ => true
  end.

(** [frame w w']: from [w] to [w'] the entries other than the two output
    directories are as they were, and an output name that was not a
    regular file is still not one. *)
Record frame (w w' : World) : Prop := {
  frame_rest : outputs_removed (cwd w') = outputs_removed (cwd w);
  frame_vba : not_a_file "src.vba" (cwd w) = true -> not_a_file "src.vba" (cwd w') = true;
  frame_reports :
    not_a_file "excel_reports" (cwd w) = true -> not_a_file "excel_reports" (cwd w') = true
}.

Definition frames {A} (m : M A) : Prop :=
  forall w r w', m w = (r, w') -> frame w w'.

Definition is_output (name : string) : Prop :=
  name = "src.vba" \/ name = "excel_reports".

Section Scan.

Variable VBA_Parser : string -> result VBA_Parser_obj.
Variable load_workbook : string -> bool -> result Workbook.

(** The [__main__] block after the two deletions. *)
Definition scan : M unit :=
  walked <- os_walk "." ;;
  for_each walked (fun item =>
    let '(root, _, files) := item in
    for_each files (process_file VBA_Parser load_workbook root)).

End Scan.

(** ** Sample trees *)

(** No file of the walked tree passes the discovery filter. *)
Definition no_excel_in (walked : list (string * list string * list string)) : bool :=
  forallb (fun item => forallb (fun file => negb (is_excel_file file)) (snd item)) walked.

(** A tree without Excel files in which [src.vba] is a regular file and
    [excel_reports] a directory left by an earlier run. *)
Definition tree_with_src_vba_file : entries :=
  [("notes.txt", File "to do");
   ("src.vba", File "not a directory");
   ("excel_reports", Dir [("book_merged_cells.txt", File "Sheet: Sheet1")])].

(** A tree without Excel files, with both directories left by an earlier
    run. *)
Definition tree_with_old_outputs : entries :=
  [("notes.txt", File "to do");
   ("src.vba", Dir [("book_Module1.bas", File "Sub f()")]);
   ("docs", Dir [("readme.md", File "hello")]);
   ("excel_reports", Dir [("book_merged_cells.txt", File "Sheet: Sheet1")])].

(** A working directory with one workbook and reports of an earlier run. *)
Definition tree_with_workbook (old_report : string) : entries :=
  [("book.xlsx", File "PK");
   ("excel_reports", Dir [("book_formulas_and_values.txt", File old_report)])].

(** * Definitions for more properties *)

(** ** Names and prefixes *)

(** [c] is a character of [s]. *)
Fixpoint occurs (c : ascii) (s : string) : bool :=
  match s with
  | EmptyString => false
  | String d rest => Ascii.eqb d c || occurs c rest
  end.

(** [s] is made of dots (or empty). *)
Fixpoint only_dots (s : string) : bool :=
  match s with
  | EmptyString => true
  | String c rest => Ascii.eqb c "."%char && only_dots rest
  end.

(** The last character of a string. *)
Fixpoint last_char (s : string) : option ascii :=
  match s with
  | EmptyString => None
  | String c rest => match last_char rest with
                     | Some d => Some d
                     | None => Some c
                     end
  end.

(** The characters an extension of [EXCEL_FILE_EXTENSIONS] ends with. *)
Definition extension_endings : list ascii := ["b"; "s"; "m"; "a"; "t"; "x"]%char.

(** ** Files written in a directory *)

(** The files a list of writes leaves in a directory that held [es]:
    each write creates or replaces the file of its name. *)
Definition write_files (writes : list (string * string)) (es : entries) : entries :=
  fold_left (fun es item => Fs.set (fst item) (File (snd item)) es) writes es.

(** The content of the last write to [name], if there is one. *)
Fixpoint last_write (name : string) (writes : list (string * string)) : option string :=
  match writes with
  | [] => None
  | (n, c) :: tl =>
      match last_write name tl with
      | Some c' => Some c'
      | None => if String.eqb n name then Some c else None
      end
  end.

(** No write goes to a name that a sub-directory of [es] has. *)
Definition no_dir_clash (writes : list (string * string)) (es : entries) : bool :=
  forallb (fun item => match Fs.lookup (fst item) es with
                       | Some (Dir _) => false
                       | _ => true
                       end) writes.

(** The entries of the directory [name] of the working directory; none
    when it is not there. *)
Definition dir_entries (name : string) (es : entries) : entries :=
  match Fs.lookup name es with
  | Some (Dir sub) => sub
  | _ => []
  end.

(** The modules [parse_vba] goes through. *)
Definition vba_modules (parser : VBA_Parser_obj) : list vba_module :=
  if detect_vba_macros parser then extract_all_macros parser else [].

(** The files [parse_vba] writes for these modules, in order: name in
    [src.vba] and content. *)
Definition written_modules (file_prefix : string) (modules : list vba_module)
  : list (string * string) :=
  flat_map (fun m =>
              let '(_, _, filename, content) := m in
              if negb (is_empty (content_filtered content)) then
                [((file_prefix ++ "_" ++ filename)%string,
                  PyStr.join PyStr.newline (content_filtered content))]
              else []) modules.

(** [keeps R m]: whatever [m] returns or raises, the state it ends in is
    related by [R] to the one it started in. *)
Definition keeps {A} (R : World -> World -> Prop) (m : M A) : Prop :=
  forall w r w', m w = (r, w') -> R w w'.

(** The console is as it was, and so is every entry but [dir]. *)
Definition only_touches (dir : string) (w w' : World) : Prop :=
  stdout w' = stdout w /\ Fs.remove dir (cwd w') = Fs.remove dir (cwd w).

(** The files [generate_text_reports] writes, in order: name in
    [excel_reports] and content. *)
Definition report_writes (file_prefix : string) (reports : Reports)
  : list (string * string) :=
  map (fun item => (fst item, (PyStr.join PyStr.newline (snd item) ++ PyStr.newline)%string))
      (items file_prefix reports).

(** The line [generate_text_reports] prints when it is done. *)
Definition reports_saved (file_prefix : string) : string :=
  "Reports for " ++ file_prefix ++ " saved in 'excel_reports' folder.".

(** ** Sheets and their sections *)

(** What the loop body adds to the report [c] for one sheet. *)
Definition sheet_section (c : category) (sheet_name : string) (sheet : Worksheet)
  : list string :=
  sheet_reports empty_reports sheet_name sheet sheet c.

(** Every name is the title of a sheet of [wb]. *)
Definition has_sheets (wb : Workbook) (names : list string) : bool :=
  forallb (fun name => match find_sheet name (sheets wb) with
                       | Some _ => true
                       | None => false
                       end) names.

(** ** Reports after a run *)

(** [excel_reports] is a directory that holds a regular file [name]. *)
Definition report_exists (name : string) (es : entries) : bool :=
  match Fs.lookup name (dir_entries "excel_reports" es) with
  | Some (File _) => true
  | _ => false
  end.

(** Once there, the report [name] stays. *)
Definition report_stays (name : string) (w w' : World) : Prop :=
  report_exists name (cwd w) = true -> report_exists name (cwd w') = true.

(** The Excel files of a walk, in the order the loops of [__main__] meet
    them: path and prefix. *)
Definition excel_files (walked : list (string * list string * list string))
  : list (string * string) :=
  flat_map (fun item =>
              flat_map (fun file =>
                          if is_excel_file file
                          then [(OsPath.join (fst (fst item)) file, OsPath.splitext_root file)]
                          else [])
                       (snd item))
           walked.

(** ** More sample data *)

(** The reports of a result, none when it is an exception. *)
Definition reports_of (r : result Reports) : Reports :=
  fun c => match r with
           | Ok reports => reports c
           | Raise _ => []
           end.

(** [load_workbook] for a file that is not a workbook. *)
Definition load_corrupt_workbook (content : string) (data_only : bool) : result Workbook :=
  Raise (LibraryError "File is not a zip file").

(** A sheet with a merged range and a hyperlink on an empty cell. *)
Definition sample_sheet : Worksheet :=
  {| iter_rows :=
       [[plain_cell "A1" (PStr "rate"); plain_cell "B1" (PInt 0)];
        [{| coordinate := "A2"; value := PNone;
            font := font (plain_cell "A2" PNone);
            fill := fill (plain_cell "A2" PNone);
            alignment := alignment (plain_cell "A2" PNone);
            number_format := PStr "General";
            hyperlink := Some {| target := PStr "https://example.org" |} |};
         plain_cell "B2" (PStr "=B1*2")]];
     conditional_formatting := [];
     merged_cells_ranges := [PObj {| obj_str := "A3:B4"; obj_truthy := true |}];
     data_validations := [] |}.

(** A sheet with no cell. *)
Definition empty_sheet : Worksheet :=
  {| iter_rows := [];
     conditional_formatting := [];
     merged_cells_ranges := [];
     data_validations := [] |}.

(** A workbook with two sheets and two defined names. *)
Definition sample_workbook : Workbook :=
  {| defined_names := [("Rate", PStr "Sheet1!$B$1"); ("Total", PStr "Sheet1!$B$2")];
     sheets := [("Sheet1", sample_sheet); ("Notes", empty_sheet)] |}.

(** A workbook with no sheet. *)
Definition no_sheet_workbook : Workbook := {| defined_names := []; sheets := [] |}.

(** A tree with two workbooks, one in a sub-directory. *)
Definition tree_with_two_workbooks : entries :=
  [("book.xlsx", File "PK");
   ("notes.txt", File "to do");
   ("archive", Dir [("old.xlsm", File "PK")])].

(** ** The same workbook in another run of the interpreter *)
















(** The names of these writes are entry names: none holds a separator. *)
Definition plain_names (writes : list (string * string)) : bool :=
  forallb (fun item => negb (occurs "/" (fst item))) writes.

(** * Properties *)

(** ** The embedding on small inputs *)

Example splitlines_ex1 :
  PyStr.splitlines ("ab" ++ PyStr.newline ++ PyStr.newline ++ "c" ++ PyStr.newline)
  = ["ab"; ""; "c"].
Proof. reflexivity. Qed.

Example splitlines_ex2 :
  PyStr.splitlines ("a" ++ String PyStr.CR (String PyStr.LF "b")) = ["a"; "b"].
Proof. reflexivity. Qed.

Example splitlines_ex3 : PyStr.splitlines "" = [].
Proof. reflexivity. Qed.

Example splitext_ex1 : OsPath.splitext_root "data.xlsx" = "data".
Proof. reflexivity. Qed.

Example splitext_ex2 : OsPath.splitext_root ".xlsx" = ".xlsx".
Proof. reflexivity. Qed.

Example splitext_ex3 : OsPath.splitext_root "a.b.xls" = "a.b".
Proof. reflexivity. Qed.

Example splitext_ex4 : OsPath.splitext_root "fooxls" = "fooxls".
Proof. reflexivity. Qed.

Example is_excel_ex1 : is_excel_file "data.xlsx" = true.
Proof. reflexivity. Qed.

Example is_excel_ex2 : is_excel_file "data.XLSX" = false.
Proof. reflexivity. Qed.

Example py_str_ex1 : py_str (PInt 42) = "42".
Proof. reflexivity. Qed.

Example py_str_ex2 : py_str (PInt (-7)) = "-7".
Proof. reflexivity. Qed.

Example py_str_ex3 : py_str (PInt 0) = "0".
Proof. reflexivity. Qed.

(** ** The discovery filter *)

(** C3, as the specification states it, fails: the name [foo.not_xlsx]
    passes the filter. *)
Lemma foo_not_xlsx_counterexample : is_excel_file "foo.not_xlsx" <> false.
Proof. discriminate. Qed.

(** C3, amended: the file named [foo.not_xlsx] is selected by the
    discovery filter, since its last four characters are [xlsx]; in any
    directory [root] it is processed as an Excel file, with the prefix
    [foo]. *)
Theorem foo_not_xlsx_selected :
  is_excel_file "foo.not_xlsx" = true /\
  PyStr.endswith "foo.not_xlsx" "xlsx" = true /\
  forall VBA_Parser load_workbook root,
    process_file VBA_Parser load_workbook root "foo.not_xlsx" =
    (print ("Processing: " ++ OsPath.join root "foo.not_xlsx") ;;
     parse_vba VBA_Parser (OsPath.join root "foo.not_xlsx") "foo" ;;
     generate_text_reports load_workbook (OsPath.join root "foo.not_xlsx") "foo").
Proof. repeat split. Qed.

(** C4: the file named [fooxls], which has no extension, is selected by
    the discovery filter (its last three characters are [xls]); in any
    directory [root] it is processed as an Excel file, with its whole
    name as the prefix. *)
Theorem fooxls_selected :
  is_excel_file "fooxls" = true /\
  PyStr.endswith "fooxls" "xls" = true /\
  PyStr.contains "." "fooxls" = false /\
  forall VBA_Parser load_workbook root,
    process_file VBA_Parser load_workbook root "fooxls" =
    (print ("Processing: " ++ OsPath.join root "fooxls") ;;
     parse_vba VBA_Parser (OsPath.join root "fooxls") "fooxls" ;;
     generate_text_reports load_workbook (OsPath.join root "fooxls") "fooxls").
Proof. repeat split. Qed.

(** ** The type of a cell value *)

(** C2, on the code: a boolean is an instance of [int], and the numeric
    test comes first in the chain, so a boolean cell is reported as a
    number (the cell B2 holding [True] gives the line below); the
    [Boolean] branch is never taken. *)
Theorem cell_type_of_bool :
  (forall b, cell_type (PBool b) = "Number") /\
  (forall v, String.eqb (cell_type v) "Boolean" = false) /\
  (forall f fl al nf h,
     formulas_cell_lines
       {| coordinate := "B2"; value := PBool true; font := f; fill := fl;
          alignment := al; number_format := nf; hyperlink := h |}
     = ["Cell B2: Value='True', Type='Number'"%string]).
Proof.
  split; [reflexivity | split].
  - intros [| [] | n | f | s | o | q a]; reflexivity.
  - reflexivity.
Qed.

(** ** The view behind the formulas-and-values report *)

Lemma sheet_reports_formulas (reports : Reports) (sheet_name : string)
    (sheet eval_sheet : Worksheet) :
  sheet_reports reports sheet_name sheet eval_sheet Formulas_and_values =
  reports Formulas_and_values ++
  sheet_header sheet_name :: flat_map formulas_cell_lines (cells sheet).
Proof. reflexivity. Qed.

Lemma for_sheets_formulas (workbook eval_workbook : Workbook) (names : list string) :
  forall reports final,
    for_sheets workbook eval_workbook names reports = Ok final ->
    final Formulas_and_values =
    reports Formulas_and_values ++ formulas_and_values_of_view workbook names.
Proof.
  induction names as [| sheet_name tl IH]; intros reports final H; simpl in H.
  - injection H as <-. simpl. now rewrite app_nil_r.
  - unfold formulas_and_values_of_view. simpl.
    destruct (getitem workbook sheet_name) as [sheet |]; [| discriminate].
    destruct (getitem eval_workbook sheet_name) as [eval_sheet |]; [| discriminate].
    apply IH in H. rewrite H, sheet_reports_formulas, <- app_assoc. reflexivity.
Qed.

(** C1, on the code: the workbook loaded with [data_only=True] is opened
    and each of its sheets is looked up, but no cell of it is read; the
    lines of the formulas-and-values report are those of the workbook
    that keeps the formulas.  With the formula [=1+2] in A1, last
    computed as 3, the report and the file that is written say
    [Value='=1+2', Type='Text'], where the specification says the value
    is the computed one, [Value='3'], as the evaluated workbook would
    give. *)
Theorem formulas_report_from_formula_view
    (workbook eval_workbook : Workbook) (reports : Reports) :
  build_reports workbook eval_workbook = Ok reports ->
  reports Formulas_and_values =
    formulas_and_values_of_view workbook (sheetnames workbook)
  /\ formulas_report (workbook_with_A1 (PStr "=1+2")) (workbook_with_A1 (PInt 3))
     = Some [sheet_header "Sheet1"; "Cell A1: Value='=1+2', Type='Text'"%string]
  /\ formulas_and_values_of_view (workbook_with_A1 (PInt 3)) ["Sheet1"%string]
     = [sheet_header "Sheet1"; "Cell A1: Value='3', Type='Number'"%string]
  /\ Fs.read "excel_reports/book_formulas_and_values.txt"
       (cwd (snd (generate_text_reports load_formula_workbook "./book.xlsx" "book"
                    {| cwd := [("book.xlsx", File "PK")]; stdout := [] |})))
     = Ok ("Sheet: Sheet1" ++ PyStr.newline ++ PyStr.repeat "-" 40 ++ PyStr.newline
           ++ "Cell A1: Value='=1+2', Type='Text'" ++ PyStr.newline)%string.
Proof.
  intros H. split; [| repeat split].
  unfold build_reports in H. apply for_sheets_formulas in H. exact H.
Qed.

Lemma formulas_report_from_formula_view_witness :
  formulas_report (workbook_with_A1 (PStr "=1+2")) (workbook_with_A1 (PInt 3))
  = Some (formulas_and_values_of_view (workbook_with_A1 (PStr "=1+2")) ["Sheet1"%string]).
Proof.
  pose proof (formulas_report_from_formula_view
                (workbook_with_A1 (PStr "=1+2")) (workbook_with_A1 (PInt 3))
                (fun c =>
                   match build_reports (workbook_with_A1 (PStr "=1+2"))
                                       (workbook_with_A1 (PInt 3)) with
                   | Ok reports => reports c
                   | Raise _ => []
                   end)
                eq_refl) as [H _].
  exact (f_equal Some H).
Defined.

(** ** Cells that are not [None] but false *)




(** ** The macro extractor *)

Section ParseVba.

Variable VBA_Parser : string -> result VBA_Parser_obj.

(** The loop of [parse_vba] does nothing on modules that are empty once
    filtered. *)
Lemma for_each_empty_modules (file_prefix : string) (modules : list vba_module) (w : World) :
  Forall (fun m => content_filtered (snd m) = []) modules ->
  for_each modules (fun m =>
    let '(_, _, filename, content) := m in
    let filtered := content_filtered content in
    if negb (is_empty filtered) then
      makedirs "src.vba" ;;
      open_write "src.vba" (file_prefix ++ "_" ++ filename)
                 (PyStr.join PyStr.newline filtered)
    else ret tt) w = (Ok tt, w).
Proof.
  induction 1 as [| [[[container stream] filename] content] tl Hm _ IH].
  - reflexivity.
  - simpl in Hm. cbn [for_each]. unfold bind at 1. cbv zeta.
    rewrite Hm. cbn [is_empty negb]. unfold ret at 1. exact IH.
Qed.

(** What [parse_vba] does once the parser object is known. *)
Lemma parse_vba_opened (path file_prefix content : string) (parser : VBA_Parser_obj) (w : World) :
  Fs.read path (cwd w) = Ok content ->
  VBA_Parser content = Ok parser ->
  parse_vba VBA_Parser path file_prefix w =
  for_each (if detect_vba_macros parser then extract_all_macros parser else [])
    (fun m =>
      let '(_, _, filename, content) := m in
      let filtered := content_filtered content in
      if negb (is_empty filtered) then
        makedirs "src.vba" ;;
        open_write "src.vba" (file_prefix ++ "_" ++ filename)
                   (PyStr.join PyStr.newline filtered)
      else ret tt) w.
Proof.
  intros Hread Hparse. unfold parse_vba, bind at 1, open_with.
  rewrite Hread, Hparse. reflexivity.
Qed.

End ParseVba.

(** C5: when the workbook has one macro module, whose source is the line
    [Attribute VB_Name = "Module1"] and nothing else, and [KEEP_NAME] is
    false, the line is dropped by the filter, nothing is left of the
    module and [parse_vba] returns without touching the filesystem. *)
Theorem parse_vba_attribute_only
    (VBA_Parser : string -> result VBA_Parser_obj)
    (path file_prefix bytes : string) (parser : VBA_Parser_obj) (w : World)
    (container stream filename content : string) :
  Fs.read path (cwd w) = Ok bytes ->
  VBA_Parser bytes = Ok parser ->
  extract_all_macros parser = [(container, stream, filename, content)] ->
  PyStr.splitlines content = [attribute_vb_name_line] ->
  KEEP_NAME = false /\
  keep_line attribute_vb_name_line = false /\
  content_filtered content = [] /\
  parse_vba VBA_Parser path file_prefix w = (Ok tt, w).
Proof.
  intros Hread Hparse Hmods Hlines.
  assert (Hf : content_filtered content = []).
  { unfold content_filtered. rewrite Hlines. reflexivity. }
  repeat split; try assumption.
  rewrite (parse_vba_opened _ _ file_prefix _ _ _ Hread Hparse).
  apply for_each_empty_modules.
  destruct (detect_vba_macros parser); [| constructor].
  rewrite Hmods. constructor; [exact Hf | constructor].
Qed.

Lemma parse_vba_attribute_only_witness :
  parse_vba (parser_with_modules [attribute_vb_name_line]) "./book.xlsm" "book" one_workbook
  = (Ok tt, one_workbook).
Proof.
  apply (parse_vba_attribute_only (parser_with_modules [attribute_vb_name_line])
           "./book.xlsm" "book" "PK"
           {| detect_vba_macros := true;
              extract_all_macros :=
                [("book.xlsm", "VBA/Module1", "Module1.bas", attribute_vb_name_line)] |}
           one_workbook "book.xlsm" "VBA/Module1" "Module1.bas" attribute_vb_name_line
           eq_refl eq_refl eq_refl eq_refl).
Defined.

(** C6: when the parser detects no VBA macro in the workbook, [parse_vba]
    returns with the filesystem as it found it; no file is written and
    [src.vba] is not created. *)
Theorem parse_vba_no_macros
    (VBA_Parser : string -> result VBA_Parser_obj)
    (path file_prefix bytes : string) (parser : VBA_Parser_obj) (w : World) :
  Fs.read path (cwd w) = Ok bytes ->
  VBA_Parser bytes = Ok parser ->
  detect_vba_macros parser = false ->
  parse_vba VBA_Parser path file_prefix w = (Ok tt, w).
Proof.
  intros Hread Hparse Hdetect.
  rewrite (parse_vba_opened _ _ file_prefix _ _ _ Hread Hparse).
  rewrite Hdetect. reflexivity.
Qed.

Lemma parse_vba_no_macros_witness :
  parse_vba parser_without_macros "./book.xlsm" "book" one_workbook = (Ok tt, one_workbook)
  /\ Fs.lookup "src.vba" (cwd one_workbook) = None.
Proof.
  split; [| reflexivity].
  apply (parse_vba_no_macros parser_without_macros "./book.xlsm" "book" "PK"
           {| detect_vba_macros := false; extract_all_macros := [] |} one_workbook
           eq_refl eq_refl eq_refl).
Defined.

(** C10: when macros are detected but every module is empty once its
    [Attribute] lines are filtered out, [parse_vba] returns with the
    filesystem as it found it: [src.vba] is made just before a module
    that has lines left is written, which never happens here. *)
Theorem parse_vba_all_modules_empty
    (VBA_Parser : string -> result VBA_Parser_obj)
    (path file_prefix bytes : string) (parser : VBA_Parser_obj) (w : World) :
  Fs.read path (cwd w) = Ok bytes ->
  VBA_Parser bytes = Ok parser ->
  detect_vba_macros parser = true ->
  Forall (fun m => content_filtered (snd m) = []) (extract_all_macros parser) ->
  parse_vba VBA_Parser path file_prefix w = (Ok tt, w).
Proof.
  intros Hread Hparse Hdetect Hempty.
  rewrite (parse_vba_opened _ _ file_prefix _ _ _ Hread Hparse).
  rewrite Hdetect. apply for_each_empty_modules. exact Hempty.
Qed.

Lemma parse_vba_all_modules_empty_witness :
  parse_vba (parser_with_modules
               [attribute_vb_name_line;
                ("Attribute VB_Base = x" ++ PyStr.newline ++ "Attribute VB_Exposed = False")%string;
                ""%string])
            "./book.xlsm" "book" one_workbook
  = (Ok tt, one_workbook).
Proof.
  apply (parse_vba_all_modules_empty
           (parser_with_modules
              [attribute_vb_name_line;
               ("Attribute VB_Base = x" ++ PyStr.newline ++ "Attribute VB_Exposed = False")%string;
               ""%string])
           "./book.xlsm" "book" "PK"
           {| detect_vba_macros := true;
              extract_all_macros :=
                map (fun src => ("book.xlsm", "VBA/Module1", "Module1.bas", src))
                  [attribute_vb_name_line;
                   ("Attribute VB_Base = x" ++ PyStr.newline
                      ++ "Attribute VB_Exposed = False")%string;
                   ""%string] |}
           one_workbook eq_refl eq_refl eq_refl).
  repeat constructor.
Defined.

(** ** Facts on directory listings *)

Module FsFacts.

Lemma lookup_set_same (k : string) (n : node) (es : entries) :
  Fs.lookup k (Fs.set k n es) = Some n.
Proof.
  induction es as [| [k' m] tl IH]; simpl.
  - now rewrite String.eqb_refl.
  - destruct (String.eqb k' k) eqn:E; simpl; rewrite E; [reflexivity | exact IH].
Qed.

Lemma lookup_set_other (k k' : string) (n : node) (es : entries) :
  k <> k' -> Fs.lookup k' (Fs.set k n es) = Fs.lookup k' es.
Proof.
  intros Hne. induction es as [| [a m] tl IH]; simpl.
  - apply String.eqb_neq in Hne. now rewrite Hne.
  - destruct (String.eqb_spec a k) as [-> | Hak]; simpl.
    + apply String.eqb_neq in Hne. now rewrite Hne.
    + destruct (String.eqb a k'); [reflexivity | exact IH].
Qed.

Lemma remove_set_same (k : string) (n : node) (es : entries) :
  Fs.remove k (Fs.set k n es) = Fs.remove k es.
Proof.
  unfold Fs.remove. induction es as [| [a m] tl IH]; simpl.
  - now rewrite String.eqb_refl.
  - destruct (String.eqb a k) eqn:E; simpl; rewrite E; simpl; [reflexivity |].
    now rewrite IH.
Qed.

Lemma remove_set_other (k k' : string) (n : node) (es : entries) :
  k <> k' -> Fs.remove k' (Fs.set k n es) = Fs.set k n (Fs.remove k' es).
Proof.
  intros Hne. unfold Fs.remove. induction es as [| [a m] tl IH]; simpl.
  - apply String.eqb_neq in Hne. now rewrite Hne.
  - destruct (String.eqb_spec a k) as [-> | Hak]; simpl.
    + apply String.eqb_neq in Hne. rewrite Hne. simpl. now rewrite String.eqb_refl.
    + destruct (String.eqb a k') eqn:E; simpl; [exact IH |].
      apply String.eqb_neq in Hak. rewrite Hak. now rewrite IH.
Qed.

Lemma lookup_remove_same (k : string) (es : entries) :
  Fs.lookup k (Fs.remove k es) = None.
Proof.
  unfold Fs.remove. induction es as [| [a m] tl IH]; simpl; [reflexivity |].
  destruct (String.eqb a k) eqn:E; simpl; [exact IH | now rewrite E].
Qed.

Lemma lookup_remove_other (k k' : string) (es : entries) :
  k <> k' -> Fs.lookup k' (Fs.remove k es) = Fs.lookup k' es.
Proof.
  intros Hne. unfold Fs.remove. induction es as [| [a m] tl IH]; simpl; [reflexivity |].
  destruct (String.eqb_spec a k) as [-> | Hak]; simpl.
  - apply String.eqb_neq in Hne. now rewrite Hne.
  - destruct (String.eqb a k'); [reflexivity | exact IH].
Qed.

Lemma remove_absent (k : string) (es : entries) :
  Fs.lookup k es = None -> Fs.remove k es = es.
Proof.
  unfold Fs.remove. induction es as [| [a m] tl IH]; simpl; [reflexivity |].
  destruct (String.eqb a k); [discriminate |]. simpl. intros H. now rewrite IH.
Qed.

Lemma walk_eq (top : string) (es : entries) :
  Fs.walk top es =
  (top, Fs.dirnames es, Fs.filenames es) ::
  flat_map (fun e => Fs.walk_node (OsPath.join top (fst e)) (snd e)) es.
Proof. reflexivity. Qed.

(** Removing entries of a directory removes items of its walk, and files
    of its first item; nothing is added. *)
Lemma walk_filter (top : string) (p : string * node -> bool) (es : entries) :
  forall item, In item (Fs.walk top (filter p es)) ->
  exists item', In item' (Fs.walk top es) /\ incl (snd item) (snd item').
Proof.
  intros item Hin. rewrite walk_eq in Hin. destruct Hin as [<- | Hin].
  - exists (top, Fs.dirnames es, Fs.filenames es). split.
    + rewrite walk_eq. now left.
    + simpl. unfold Fs.filenames. intros f Hf.
      apply in_map_iff in Hf as [e [<- He]]. apply filter_In in He as [He Hfile].
      apply filter_In in He as [He _]. apply in_map. apply filter_In. now split.
  - exists item. split; [| apply incl_refl].
    rewrite walk_eq. right. apply in_flat_map in Hin as [e [He Hitem]].
    apply filter_In in He as [He _]. apply in_flat_map. now exists e.
Qed.

End FsFacts.

(** ** What a run leaves alone *)

Lemma frame_refl (w : World) : frame w w.
Proof. split; auto. Qed.

Lemma frame_trans (w1 w2 w3 : World) : frame w1 w2 -> frame w2 w3 -> frame w1 w3.
Proof.
  intros [R1 V1 E1] [R2 V2 E2]. split; [congruence | auto | auto].
Qed.

Lemma outputs_removed_set (name : string) (n : node) (es : entries) :
  is_output name -> outputs_removed (Fs.set name n es) = outputs_removed es.
Proof.
  unfold outputs_removed. intros [-> | ->].
  - now rewrite FsFacts.remove_set_same.
  - rewrite FsFacts.remove_set_other by discriminate.
    now rewrite FsFacts.remove_set_same.
Qed.

Lemma not_a_file_set_dir (k name : string) (sub : entries) (es : entries) :
  not_a_file k es = true -> not_a_file k (Fs.set name (Dir sub) es) = true.
Proof.
  unfold not_a_file. destruct (String.eqb_spec name k) as [-> | Hne].
  - now rewrite FsFacts.lookup_set_same.
  - now rewrite FsFacts.lookup_set_other.
Qed.

Lemma frame_set_dir (w : World) (name : string) (sub : entries) :
  is_output name -> frame w (with_cwd w (Fs.set name (Dir sub) (cwd w))).
Proof.
  intros Hout. split; simpl.
  - now apply outputs_removed_set.
  - apply not_a_file_set_dir.
  - apply not_a_file_set_dir.
Qed.

Lemma outputs_removed_idem (es : entries) :
  outputs_removed (outputs_removed es) = outputs_removed es.
Proof.
  unfold outputs_removed.
  rewrite (FsFacts.remove_absent "src.vba").
  - apply FsFacts.remove_absent, FsFacts.lookup_remove_same.
  - rewrite FsFacts.lookup_remove_other by discriminate.
    apply FsFacts.lookup_remove_same.
Qed.

Section Frames.

Lemma frames_ret {A} (a : A) : frames (ret a).
Proof. intros w r w' H. injection H as _ <-. apply frame_refl. Qed.

Lemma frames_lift {A} (x : result A) : frames (lift x).
Proof. intros w r w' H. injection H as _ <-. apply frame_refl. Qed.

Lemma frames_bind {A B} (m : M A) (k : A -> M B) :
  frames m -> (forall a, frames (k a)) -> frames (bind m k).
Proof.
  intros Hm Hk w r w' H. unfold bind in H.
  destruct (m w) as [[a | e] w1] eqn:E.
  - eapply frame_trans; [eapply Hm, E | eapply Hk, H].
  - injection H as _ <-. eapply Hm, E.
Qed.

Lemma frames_for_each {A} (l : list A) (body : A -> M unit) :
  (forall x, frames (body x)) -> frames (for_each l body).
Proof.
  intros Hbody. induction l as [| x tl IH]; simpl.
  - apply frames_ret.
  - apply frames_bind; [apply Hbody | intros _; exact IH].
Qed.

Lemma frames_print (line : string) : frames (print line).
Proof. intros w r w' H. injection H as _ <-. split; auto. Qed.

Lemma frames_os_walk (top : string) : frames (os_walk top).
Proof. intros w r w' H. injection H as _ <-. apply frame_refl. Qed.

Lemma frames_open_with {A} (library : string -> result A) (path : string) :
  frames (open_with library path).
Proof.
  intros w r w' H. unfold open_with in H.
  destruct (Fs.read path (cwd w)); injection H as _ <-; apply frame_refl.
Qed.

Lemma frames_makedirs (name : string) : is_output name -> frames (makedirs name).
Proof.
  intros Hout w r w' H. unfold makedirs in H.
  destruct (Fs.lookup name (cwd w)) as [[content | sub] |];
    injection H as _ <-; try apply frame_refl.
  now apply frame_set_dir.
Qed.

Lemma frames_open_write (dir name content : string) :
  is_output dir -> frames (open_write dir name content).
Proof.
  intros Hout w r w' H. unfold open_write in H.
  destruct (Fs.lookup dir (cwd w)) as [[c | es] |];
    try (injection H as _ <-; apply frame_refl).
  destruct (Fs.lookup name es) as [[c | sub] |];
    injection H as _ <-; try apply frame_refl; now apply frame_set_dir.
Qed.

Variable VBA_Parser : string -> result VBA_Parser_obj.
Variable load_workbook : string -> bool -> result Workbook.

Lemma frames_parse_vba (path file_prefix : string) :
  frames (parse_vba VBA_Parser path file_prefix).
Proof.
  unfold parse_vba. apply frames_bind; [apply frames_open_with |].
  intros parser. apply frames_for_each.
  intros [[[container stream] filename] content]. cbv zeta.
  destruct (negb (is_empty (content_filtered content))); [| apply frames_ret].
  apply frames_bind; [apply frames_makedirs; now left |].
  intros _. apply frames_open_write. now left.
Qed.

Lemma frames_generate_text_reports (path file_prefix : string) :
  frames (generate_text_reports load_workbook path file_prefix).
Proof.
  unfold generate_text_reports.
  apply frames_bind; [apply frames_makedirs; now right | intros _].
  apply frames_bind; [apply frames_open_with | intros workbook].
  apply frames_bind; [apply frames_open_with | intros eval_workbook].
  apply frames_bind; [apply frames_lift | intros reports].
  apply frames_bind; [| intros _; apply frames_print].
  apply frames_for_each. intros item. apply frames_open_write. now right.
Qed.

Lemma frames_process_file (root file : string) :
  frames (process_file VBA_Parser load_workbook root file).
Proof.
  unfold process_file. destruct (is_excel_file file); [| apply frames_ret].
  apply frames_bind; [apply frames_print | intros _].
  apply frames_bind; [apply frames_parse_vba | intros _].
  apply frames_generate_text_reports.
Qed.

Lemma frames_scan : frames (scan VBA_Parser load_workbook).
Proof.
  unfold scan. apply frames_bind; [apply frames_os_walk | intros walked].
  apply frames_for_each. intros [[root dirs] files].
  apply frames_for_each. intros file. apply frames_process_file.
Qed.

(** A run, by what the two output names are when it starts. *)
Lemma run_cases (es : entries) :
  run VBA_Parser load_workbook es =
  match Fs.lookup "src.vba" es with
  | Some (File _) => (Raise NotADirectoryError, {| cwd := es; stdout := [] |})
  | _ =>
      match Fs.lookup "excel_reports" es with
      | Some (File _) =>
          (Raise NotADirectoryError, {| cwd := Fs.remove "src.vba" es; stdout := [] |})
      | _ => scan VBA_Parser load_workbook {| cwd := outputs_removed es; stdout := [] |}
      end
  end.
Proof.
  unfold run, main, outputs_removed.
  unfold bind at 1. unfold bind at 1. unfold path_exists at 1. cbn [cwd].
  assert (Hother : forall l, Fs.lookup "excel_reports" (Fs.remove "src.vba" l)
                             = Fs.lookup "excel_reports" l).
  { intros l. apply FsFacts.lookup_remove_other. discriminate. }
  assert (Hrest : forall l,
    bind (bind (path_exists "excel_reports")
               (fun b => if b then rmtree "excel_reports" else ret tt))
         (fun _ => scan VBA_Parser load_workbook) {| cwd := l; stdout := [] |} =
    match Fs.lookup "excel_reports" l with
    | Some (File _) => (Raise NotADirectoryError, {| cwd := l; stdout := [] |})
    | _ => scan VBA_Parser load_workbook
             {| cwd := Fs.remove "excel_reports" l; stdout := [] |}
    end).
  { intros l. unfold bind at 1. unfold bind at 1. unfold path_exists at 1. cbn [cwd].
    destruct (Fs.lookup "excel_reports" l) as [[c | sub] |] eqn:E.
    - unfold rmtree. cbn [cwd]. now rewrite E.
    - unfold rmtree. cbn [cwd]. rewrite E. reflexivity.
    - unfold ret. now rewrite FsFacts.remove_absent. }
  destruct (Fs.lookup "src.vba" es) as [[c | sub] |] eqn:E.
  - unfold rmtree. cbn [cwd]. now rewrite E.
  - unfold rmtree. cbn [cwd]. rewrite E. unfold with_cwd. cbn [cwd stdout].
    fold (scan VBA_Parser load_workbook). rewrite Hrest, Hother. reflexivity.
  - unfold ret at 1. fold (scan VBA_Parser load_workbook). rewrite Hrest.
    now rewrite (FsFacts.remove_absent _ _ E).
Qed.

End Frames.

(** ** Runs over a tree without Excel files *)

Lemma no_excel_in_outputs_removed (es : entries) :
  no_excel_in (Fs.walk "." es) = true ->
  no_excel_in (Fs.walk "." (outputs_removed es)) = true.
Proof.
  unfold no_excel_in, outputs_removed, Fs.remove. intros H.
  rewrite forallb_forall in H. apply forallb_forall. intros item Hin.
  apply FsFacts.walk_filter in Hin as [item1 [Hin1 Hincl1]].
  apply FsFacts.walk_filter in Hin1 as [item2 [Hin2 Hincl2]].
  specialize (H item2 Hin2). rewrite forallb_forall in H.
  apply forallb_forall. intros file Hfile. apply H, Hincl2, Hincl1, Hfile.
Qed.

Section NoExcel.

Variable VBA_Parser : string -> result VBA_Parser_obj.
Variable load_workbook : string -> bool -> result Workbook.

Lemma for_each_no_excel_file (root : string) (files : list string) (w : World) :
  forallb (fun file => negb (is_excel_file file)) files = true ->
  for_each files (process_file VBA_Parser load_workbook root) w = (Ok tt, w).
Proof.
  induction files as [| file tl IH]; simpl; intros H; [reflexivity |].
  apply andb_true_iff in H as [Hfile Htl].
  unfold bind, process_file. apply negb_true_iff in Hfile. rewrite Hfile.
  unfold ret at 1. exact (IH Htl).
Qed.

Lemma scan_no_excel (w : World) :
  no_excel_in (Fs.walk "." (cwd w)) = true ->
  scan VBA_Parser load_workbook w = (Ok tt, w).
Proof.
  unfold scan, bind at 1, os_walk.
  generalize (Fs.walk "." (cwd w)) as walked.
  induction walked as [| [[root dirs] files] tl IH]; simpl; intros H; [reflexivity |].
  apply andb_true_iff in H as [Hfiles Htl].
  unfold bind at 1. rewrite (for_each_no_excel_file root files w Hfiles).
  exact (IH Htl).
Qed.

End NoExcel.

(** C7, as the specification states it, fails: no file of the tree below
    passes the filter, yet [shutil.rmtree] raises on [src.vba], a
    regular file, and the run ends with [excel_reports] still there. *)
Lemma src_vba_file_counterexample :
  no_excel_in (Fs.walk "." tree_with_src_vba_file) = true
  /\ run parser_without_macros load_formula_workbook tree_with_src_vba_file
     = (Raise NotADirectoryError, {| cwd := tree_with_src_vba_file; stdout := [] |})
  /\ Fs.lookup "excel_reports"
       (cwd (snd (run parser_without_macros load_formula_workbook tree_with_src_vba_file)))
     <> None.
Proof.
  split; [reflexivity | split; [reflexivity | discriminate]].
Qed.

(** C7, amended: for every tree of the working directory in which no file
    passes the discovery filter and in which neither [src.vba] nor
    [excel_reports] is a regular file, a run of the hook ends normally,
    prints nothing, and leaves the tree as it was but for [src.vba] and
    [excel_reports], which are both absent: those that were there are
    deleted first, and nothing makes them again. *)
Theorem run_without_excel
    (VBA_Parser : string -> result VBA_Parser_obj)
    (load_workbook : string -> bool -> result Workbook)
    (es : entries) :
  no_excel_in (Fs.walk "." es) = true ->
  not_a_file "src.vba" es = true ->
  not_a_file "excel_reports" es = true ->
  run VBA_Parser load_workbook es
    = (Ok tt, {| cwd := outputs_removed es; stdout := [] |})
  /\ Fs.lookup "src.vba" (outputs_removed es) = None
  /\ Fs.lookup "excel_reports" (outputs_removed es) = None.
Proof.
  intros Hno Hvba Hreports. split; [| split].
  - rewrite run_cases. unfold not_a_file in Hvba, Hreports.
    assert (Hscan : scan VBA_Parser load_workbook {| cwd := outputs_removed es; stdout := [] |}
                    = (Ok tt, {| cwd := outputs_removed es; stdout := [] |})).
    { apply scan_no_excel. now apply no_excel_in_outputs_removed. }
    destruct (Fs.lookup "src.vba" es) as [[c | sub] |]; try discriminate;
      destruct (Fs.lookup "excel_reports" es) as [[c' | sub'] |]; try discriminate;
      exact Hscan.
  - unfold outputs_removed. rewrite FsFacts.lookup_remove_other by discriminate.
    apply FsFacts.lookup_remove_same.
  - apply FsFacts.lookup_remove_same.
Qed.

Lemma run_without_excel_witness :
  run parser_without_macros load_formula_workbook tree_with_old_outputs
  = (Ok tt, {| cwd := [("notes.txt", File "to do");
                       ("docs", Dir [("readme.md", File "hello")])];
               stdout := [] |}).
Proof.
  exact (proj1 (run_without_excel parser_without_macros load_formula_workbook
                  tree_with_old_outputs eq_refl eq_refl eq_refl)).
Defined.

(** ** Two runs in a row *)

Lemma not_a_file_false (name : string) (es : entries) :
  not_a_file name es = false -> exists content, Fs.lookup name es = Some (File content).
Proof.
  unfold not_a_file. destruct (Fs.lookup name es) as [[c | sub] |]; try discriminate.
  intros _. now exists c.
Qed.


Section TwoRuns.

Variable VBA_Parser : string -> result VBA_Parser_obj.
Variable load_workbook : string -> bool -> result Workbook.




End TwoRuns.

(** [open(..., 'w')] replaces what the file held. *)
Lemma open_write_overwrites (dir name content : string) (w w' : World) :
  open_write dir name content w = (Ok tt, w') ->
  exists es, Fs.lookup dir (cwd w') = Some (Dir es)
             /\ Fs.lookup name es = Some (File content).
Proof.
  unfold open_write. intros H.
  destruct (Fs.lookup dir (cwd w)) as [[c | es] |]; try discriminate.
  exists (Fs.set name (File content) es).
  destruct (Fs.lookup name es) as [[c | sub] |]; try discriminate;
    injection H as <-; cbn [cwd with_cwd];
    now rewrite !FsFacts.lookup_set_same.
Qed.

(** *** The library in another run of the interpreter *)










Section SameLibrary.

Variable VBA_Parser : string -> result VBA_Parser_obj.
Variables load_workbook load_workbook' : string -> bool -> result Workbook.
Hypothesis same_library :
  forall content data_only,
    load_workbook' content data_only = load_workbook content data_only.




End SameLibrary.






(** * More properties of the script *)

(** ** Names the filter selects *)

Module StrFacts.

Lemma length_append (a b : string) :
  String.length (a ++ b) = String.length a + String.length b.
Proof. induction a as [| c a IH]; simpl; [reflexivity | now rewrite IH]. Qed.

Lemma append_nil_r (a : string) : (a ++ "")%string = a.
Proof. induction a as [| c a IH]; simpl; [reflexivity | now rewrite IH]. Qed.

Lemma append_assoc (a b c : string) : ((a ++ b) ++ c)%string = (a ++ (b ++ c))%string.
Proof. induction a as [| x a IH]; simpl; [reflexivity | now rewrite IH]. Qed.

Lemma substring_all (b : string) : String.substring 0 (String.length b) b = b.
Proof. induction b as [| c b IH]; simpl; [reflexivity | now rewrite IH]. Qed.

Lemma substring_skip (a b : string) :
  String.substring (String.length a) (String.length b) (a ++ b) = b.
Proof. induction a as [| c a IH]; simpl; [apply substring_all | exact IH]. Qed.

Lemma substring_take (a b : string) :
  String.substring 0 (String.length a) (a ++ b) = a.
Proof.
  induction a as [| c a IH]; simpl.
  - destruct b; reflexivity.
  - now rewrite IH.
Qed.

Lemma substring_split (s : string) :
  forall k, k <= String.length s ->
  s = (String.substring 0 k s ++ String.substring k (String.length s - k) s)%string.
Proof.
  induction s as [| c s IH]; intros k Hk; simpl in *.
  - destruct k; [reflexivity | lia].
  - destruct k as [| k]; simpl.
    + now rewrite substring_all.
    + f_equal. apply IH. lia.
Qed.

Lemma append_inv_head (p a b : string) : (p ++ a)%string = (p ++ b)%string -> a = b.
Proof. induction p as [| c p IH]; simpl; intros H; [exact H | injection H as H; auto]. Qed.

Lemma endswith_iff (s p : string) :
  PyStr.endswith s p = true <-> exists stem, s = (stem ++ p)%string.
Proof.
  unfold PyStr.endswith. split.
  - destruct (Nat.ltb_spec (String.length s) (String.length p)) as [Hlt | Hge];
      [discriminate |].
    intros H. apply String.eqb_eq in H.
    exists (String.substring 0 (String.length s - String.length p) s).
    pose proof (substring_split s (String.length s - String.length p)) as Hs.
    replace (String.length s - (String.length s - String.length p))
      with (String.length p) in Hs by lia.
    rewrite H in Hs. apply Hs. lia.
  - intros [stem ->]. rewrite length_append.
    destruct (Nat.ltb_spec (String.length stem + String.length p) (String.length p));
      [lia |].
    replace (String.length stem + String.length p - String.length p)
      with (String.length stem) by lia.
    rewrite substring_skip. apply String.eqb_refl.
Qed.

End StrFacts.

Lemma is_excel_file_suffix (file : string) :
  is_excel_file file = true <->
  exists stem ext, In ext EXCEL_FILE_EXTENSIONS /\ file = (stem ++ ext)%string.
Proof.
  unfold is_excel_file, PyStr.endswith_any. rewrite existsb_exists. split.
  - intros [ext [Hin H]]. apply StrFacts.endswith_iff in H as [stem ->]. now exists stem, ext.
  - intros [stem [ext [Hin ->]]]. exists ext. split; [exact Hin |].
    apply StrFacts.endswith_iff. now exists stem.
Qed.

(** X1: the discovery filter selects a name exactly when the name
    is some text followed by one of the seven entries of
    [EXCEL_FILE_EXTENSIONS]; no dot is asked for before the entry. *)
Theorem is_excel_file_iff (file : string) :
  is_excel_file file = true <->
  exists stem ext, In ext EXCEL_FILE_EXTENSIONS /\ file = (stem ++ ext)%string.
Proof.
  split; intros H.
  - now apply is_excel_file_suffix in H.
  - now apply is_excel_file_suffix.
Qed.

Lemma is_excel_file_iff_witness :
  is_excel_file "budget.2024.xlsm" = true /\
  exists stem ext, In ext EXCEL_FILE_EXTENSIONS /\ "notes.xls" = (stem ++ ext)%string.
Proof.
  split.
  - apply (proj2 (is_excel_file_iff "budget.2024.xlsm")).
    exists "budget.2024.", "xlsm". split; [simpl; tauto | reflexivity].
  - apply (proj1 (is_excel_file_iff "notes.xls")). reflexivity.
Defined.

(** ** The prefix of a file name *)

Module SplitextFacts.

Lemma occurs_append (c : ascii) (a b : string) :
  occurs c (a ++ b) = occurs c a || occurs c b.
Proof.
  induction a as [| d a IH]; simpl; [reflexivity |]. now rewrite IH, orb_assoc.
Qed.

Lemma rfind_from_append (c : ascii) (a b : string) :
  forall i found,
    PyStr.rfind_from c (a ++ b) i found =
    PyStr.rfind_from c b (i + Z.of_nat (String.length a)) (PyStr.rfind_from c a i found).
Proof.
  induction a as [| d a IH]; intros i found; simpl String.length; simpl PyStr.rfind_from.
  - now rewrite Z.add_0_r.
  - simpl. rewrite IH. f_equal. lia.
Qed.

Lemma rfind_from_absent (c : ascii) (s : string) :
  occurs c s = false -> forall i found, PyStr.rfind_from c s i found = found.
Proof.
  induction s as [| d s IH]; simpl; intros H i found; [reflexivity |].
  apply orb_false_iff in H as [Hd Hs]. rewrite Hd. now apply IH.
Qed.

Lemma char_at_append (pre : string) (c : ascii) (rest : string) :
  PyStr.char_at (Z.of_nat (String.length pre)) (pre ++ String c rest) = String c "".
Proof.
  unfold PyStr.char_at.
  destruct (Z.ltb_spec (Z.of_nat (String.length pre)) 0) as [H | _]; [lia |].
  rewrite Nat2Z.id. induction pre as [| d pre IH]; simpl; [| exact IH].
  destruct rest; reflexivity.
Qed.

Lemma skip_leading_dots_spec (rest : string) (suf : string) :
  forall fuel pre,
    String.length suf < fuel ->
    OsPath.skip_leading_dots fuel (pre ++ suf ++ rest)
      (Z.of_nat (String.length pre))
      (Z.of_nat (String.length pre + String.length suf))
    = if only_dots suf then None
      else Some (PyStr.take (Z.of_nat (String.length pre + String.length suf))
                            (pre ++ suf ++ rest)).
Proof.
  induction suf as [| c suf IH]; intros fuel pre Hfuel; simpl String.length in *.
  - destruct fuel as [| k]; [lia |]. simpl.
    rewrite Nat.add_0_r, Z.ltb_irrefl. reflexivity.
  - destruct fuel as [| k]; [lia |]. cbn [OsPath.skip_leading_dots only_dots].
    destruct (Z.ltb_spec (Z.of_nat (String.length pre))
                (Z.of_nat (String.length pre + S (String.length suf)))) as [_ | H]; [| lia].
    cbn [append]. rewrite char_at_append.
    destruct (Ascii.eqb_spec c "."%char) as [-> | Hc].
    + cbn [String.eqb Ascii.eqb Bool.eqb negb andb]. simpl negb.
      specialize (IH k (pre ++ ".")%string ltac:(lia)).
      rewrite StrFacts.append_assoc in IH. cbn [append] in IH.
      rewrite StrFacts.length_append in IH. simpl String.length in IH.
      replace (Z.of_nat (String.length pre + 1)) with (Z.of_nat (String.length pre) + 1)%Z
        in IH by lia.
      replace (String.length pre + 1 + String.length suf)
        with (String.length pre + S (String.length suf)) in IH by lia.
      exact IH.
    + assert (E : String.eqb (String c "") "." = false).
      { apply String.eqb_neq. intros H. injection H as H. contradiction. }
      rewrite E. reflexivity.
Qed.

End SplitextFacts.

(** X2: for a file name [stem.ext] without separator, where [ext]
    holds no dot, the prefix [os.path.splitext] gives is [stem]; unless
    [stem] is empty or made of dots only, in which case the prefix is the
    whole name. *)
Theorem splitext_root_stem_ext (stem ext : string) :
  occurs "/" stem = false ->
  occurs "/" ext = false ->
  occurs "." ext = false ->
  OsPath.splitext_root (stem ++ "." ++ ext) =
  if only_dots stem then (stem ++ "." ++ ext)%string else stem.
Proof.
  intros Hs1 Hs2 Hdot. unfold OsPath.splitext_root, PyStr.rfind.
  rewrite (SplitextFacts.rfind_from_absent "/" (stem ++ "." ++ ext)).
  2:{ rewrite !SplitextFacts.occurs_append, Hs1, Hs2. reflexivity. }
  rewrite SplitextFacts.rfind_from_append. cbn [append PyStr.rfind_from].
  rewrite Ascii.eqb_refl.
  rewrite (SplitextFacts.rfind_from_absent "." ext Hdot). rewrite Z.add_0_l.
  destruct (Z.ltb_spec (-1) (Z.of_nat (String.length stem))) as [_ | H]; [| lia].
  pose proof (SplitextFacts.skip_leading_dots_spec (String "." ext) stem
                (String.length (stem ++ String "." ext)) "") as H.
  cbn [append String.length Nat.add Z.of_nat] in H.
  change (-1 + 1)%Z with 0%Z. rewrite H.
  - destruct (only_dots stem); [reflexivity |].
    unfold PyStr.take. rewrite Nat2Z.id. apply StrFacts.substring_take.
  - rewrite StrFacts.length_append. simpl. lia.
Qed.

Lemma splitext_root_stem_ext_witness :
  OsPath.splitext_root "data.v2.xlsx" = "data.v2"
  /\ OsPath.splitext_root ".xlsx" = ".xlsx".
Proof.
  split.
  - exact (splitext_root_stem_ext "data.v2" "xlsx" eq_refl eq_refl eq_refl).
  - exact (splitext_root_stem_ext "" "xlsx" eq_refl eq_refl eq_refl).
Defined.

(** ** Writes in a directory *)

Module FsMore.

Lemma set_set (k : string) (n m : node) (es : entries) :
  Fs.set k n (Fs.set k m es) = Fs.set k n es.
Proof.
  induction es as [| [a x] tl IH]; simpl.
  - now rewrite String.eqb_refl.
  - destruct (String.eqb a k) eqn:E; simpl; rewrite E; [reflexivity | now rewrite IH].
Qed.

Lemma set_lookup (k : string) (n : node) (es : entries) :
  Fs.lookup k es = Some n -> Fs.set k n es = es.
Proof.
  induction es as [| [a x] tl IH]; simpl; [discriminate |].
  destruct (String.eqb a k); intros H; [now injection H as -> | now rewrite IH].
Qed.

Lemma lookup_set (k k' : string) (n : node) (es : entries) :
  Fs.lookup k' (Fs.set k n es) = if String.eqb k k' then Some n else Fs.lookup k' es.
Proof.
  destruct (String.eqb_spec k k') as [-> | Hne].
  - apply FsFacts.lookup_set_same.
  - now apply FsFacts.lookup_set_other.
Qed.

Lemma lookup_write_files (name : string) (writes : list (string * string)) :
  forall es,
    Fs.lookup name (write_files writes es) =
    match last_write name writes with
    | Some c => Some (File c)
    | None => Fs.lookup name es
    end.
Proof.
  unfold write_files.
  induction writes as [| [n c] tl IH]; intros es; simpl; [reflexivity |].
  rewrite IH. destruct (last_write name tl); [reflexivity |].
  cbn [fst snd]. rewrite lookup_set. now destruct (String.eqb n name).
Qed.

Lemma read_set_absent (path name : string) (n : node) (es : entries) (bytes : string) :
  Fs.lookup name es = None ->
  Fs.read path es = Ok bytes ->
  Fs.read path (Fs.set name n es) = Ok bytes.
Proof.
  unfold Fs.read. intros Habs. destruct (Fs.components path) as [| c rest]; simpl.
  - discriminate.
  - rewrite lookup_set. destruct (String.eqb_spec name c) as [-> | Hne].
    + now rewrite Habs.
    + auto.
Qed.

End FsMore.

Section Keeps.

Variable R : World -> World -> Prop.
Hypothesis R_refl : forall w, R w w.
Hypothesis R_trans : forall w1 w2 w3, R w1 w2 -> R w2 w3 -> R w1 w3.

Lemma keeps_ret {A} (a : A) : keeps R (ret a).
Proof. intros w r w' H. injection H as _ <-. apply R_refl. Qed.

Lemma keeps_lift {A} (x : result A) : keeps R (lift x).
Proof. intros w r w' H. injection H as _ <-. apply R_refl. Qed.

Lemma keeps_open_with {A} (library : string -> result A) (path : string) :
  keeps R (open_with library path).
Proof.
  intros w r w' H. unfold open_with in H.
  destruct (Fs.read path (cwd w)); injection H as _ <-; apply R_refl.
Qed.

Lemma keeps_os_walk (top : string) : keeps R (os_walk top).
Proof. intros w r w' H. injection H as _ <-. apply R_refl. Qed.

Lemma keeps_bind {A B} (m : M A) (k : A -> M B) :
  keeps R m -> (forall a, keeps R (k a)) -> keeps R (bind m k).
Proof.
  intros Hm Hk w r w' H. unfold bind in H.
  destruct (m w) as [[a | e] w1] eqn:E.
  - eapply R_trans; [eapply Hm, E | eapply Hk, H].
  - injection H as _ <-. eapply Hm, E.
Qed.

Lemma keeps_for_each {A} (l : list A) (body : A -> M unit) :
  (forall x, keeps R (body x)) -> keeps R (for_each l body).
Proof.
  intros Hbody. induction l as [| x tl IH]; simpl.
  - apply keeps_ret.
  - apply keeps_bind; [apply Hbody | intros _; exact IH].
Qed.

End Keeps.

Lemma bind_ok {A B} (m : M A) (k : A -> M B) (w w' : World) (b : B) :
  bind m k w = (Ok b, w') ->
  exists a w1, m w = (Ok a, w1) /\ k a w1 = (Ok b, w').
Proof.
  unfold bind. destruct (m w) as [[a | e] w1]; [| discriminate].
  intros H. now exists a, w1.
Qed.

Lemma only_touches_refl (dir : string) (w : World) : only_touches dir w w.
Proof. now split. Qed.

Lemma only_touches_trans (dir : string) (w1 w2 w3 : World) :
  only_touches dir w1 w2 -> only_touches dir w2 w3 -> only_touches dir w1 w3.
Proof. intros [S1 C1] [S2 C2]. split; congruence. Qed.

Lemma only_touches_makedirs (dir : string) : keeps (only_touches dir) (makedirs dir).
Proof.
  intros w r w' H. unfold makedirs in H.
  destruct (Fs.lookup dir (cwd w)) as [[c | sub] |];
    injection H as _ <-; try apply only_touches_refl.
  split; [reflexivity | apply FsFacts.remove_set_same].
Qed.

Lemma only_touches_open_write (dir name content : string) :
  keeps (only_touches dir) (open_write dir name content).
Proof.
  intros w r w' H. unfold open_write in H.
  destruct (Fs.lookup dir (cwd w)) as [[c | es] |];
    try (injection H as _ <-; apply only_touches_refl).
  destruct (Fs.lookup name es) as [[c | sub] |];
    injection H as _ <-; try apply only_touches_refl;
    (split; [reflexivity | apply FsFacts.remove_set_same]).
Qed.

(** The loop of writes into a directory that exists. *)
Lemma for_each_open_write {A} (dir : string) (nm ct : A -> string) (l : list A) :
  forall w es,
    Fs.lookup dir (cwd w) = Some (Dir es) ->
    no_dir_clash (map (fun x => (nm x, ct x)) l) es = true ->
    for_each l (fun x => open_write dir (nm x) (ct x)) w =
    (Ok tt, {| cwd := Fs.set dir (Dir (write_files (map (fun x => (nm x, ct x)) l) es)) (cwd w);
               stdout := stdout w |}).
Proof.
  induction l as [| x tl IH]; intros w es Hdir Hclash; simpl.
  - unfold ret. rewrite (FsMore.set_lookup _ _ _ Hdir). now destruct w.
  - simpl in Hclash. apply andb_true_iff in Hclash as [Hx Htl].
    unfold bind, open_write at 1. rewrite Hdir.
    assert (Hstep : forall w1, w1 = with_cwd w (Fs.set dir (Dir (Fs.set (nm x) (File (ct x)) es)) (cwd w)) ->
              for_each tl (fun x0 => open_write dir (nm x0) (ct x0)) w1 =
              (Ok tt, {| cwd := Fs.set dir (Dir (write_files (map (fun x0 => (nm x0, ct x0)) tl)
                                                   (Fs.set (nm x) (File (ct x)) es))) (cwd w);
                         stdout := stdout w |})).
    { intros w1 ->. rewrite (IH _ (Fs.set (nm x) (File (ct x)) es)).
      - cbn [cwd stdout with_cwd]. now rewrite FsMore.set_set.
      - cbn [cwd with_cwd]. apply FsFacts.lookup_set_same.
      - unfold no_dir_clash in *. rewrite forallb_forall in *. intros item Hitem.
        specialize (Htl item Hitem). rewrite FsMore.lookup_set.
        now destruct (String.eqb (nm x) (fst item)). }
    destruct (Fs.lookup (nm x) es) as [[c | sub] |]; [| discriminate |];
      now apply Hstep.
Qed.

(** ** What [parse_vba] writes *)

Lemma bind_apply {A B} (m : M A) (k : A -> M B) (w : World) :
  bind m k w =
  match m w with
  | (Ok a, w') => k a w'
  | (Raise e, w') => (Raise e, w')
  end.
Proof. reflexivity. Qed.

Lemma makedirs_there (dir : string) (w : World) (es : entries) :
  Fs.lookup dir (cwd w) = Some (Dir es) -> makedirs dir w = (Ok tt, w).
Proof. intros H. unfold makedirs. now rewrite H. Qed.

Lemma makedirs_absent (dir : string) (w : World) :
  Fs.lookup dir (cwd w) = None ->
  makedirs dir w = (Ok tt, with_cwd w (Fs.set dir (Dir []) (cwd w))).
Proof. intros H. unfold makedirs. now rewrite H. Qed.

Lemma open_write_there (dir name content : string) (w w' : World) (r : result unit)
    (es : entries) :
  Fs.lookup dir (cwd w) = Some (Dir es) ->
  open_write dir name content w = (r, w') ->
  exists es', Fs.lookup dir (cwd w') = Some (Dir es').
Proof.
  intros Hdir H. unfold open_write in H. rewrite Hdir in H.
  destruct (Fs.lookup name es) as [[c | sub] |]; injection H as _ <-;
    cbn [cwd with_cwd]; eauto; eexists; apply FsFacts.lookup_set_same.
Qed.

(** With the directory there, [os.makedirs(dir, exist_ok=True)] before
    each write changes nothing. *)
Lemma for_each_makedirs_there {A} (dir : string) (nm ct : A -> string) (l : list A) :
  forall w es,
    Fs.lookup dir (cwd w) = Some (Dir es) ->
    for_each l (fun x => makedirs dir ;; open_write dir (nm x) (ct x)) w =
    for_each l (fun x => open_write dir (nm x) (ct x)) w.
Proof.
  induction l as [| x tl IH]; intros w es Hdir; cbn [for_each]; [reflexivity |].
  repeat rewrite bind_apply. rewrite (makedirs_there dir w es Hdir).
  destruct (open_write dir (nm x) (ct x) w) as [[[] | e] w1] eqn:E; [| reflexivity].
  destruct (open_write_there _ _ _ _ _ _ _ Hdir E) as [es' Hdir']. eapply IH, Hdir'.
Qed.

Lemma for_each_makedirs_open_write {A} (dir : string) (nm ct : A -> string)
    (l : list A) (w : World) :
  is_empty l = false ->
  not_a_file dir (cwd w) = true ->
  no_dir_clash (map (fun x => (nm x, ct x)) l) (dir_entries dir (cwd w)) = true ->
  for_each l (fun x => makedirs dir ;; open_write dir (nm x) (ct x)) w =
  (Ok tt,
   {| cwd := Fs.set dir
               (Dir (write_files (map (fun x => (nm x, ct x)) l) (dir_entries dir (cwd w))))
               (cwd w);
      stdout := stdout w |}).
Proof.
  intros Hne Hfile Hclash. unfold not_a_file, dir_entries in *.
  destruct (Fs.lookup dir (cwd w)) as [[c | es] |] eqn:Hdir; [discriminate | |].
  - rewrite (for_each_makedirs_there dir nm ct l w es Hdir).
    now apply for_each_open_write.
  - destruct l as [| x tl]; [discriminate |].
    set (w1 := with_cwd w (Fs.set dir (Dir []) (cwd w))).
    assert (Hdir1 : Fs.lookup dir (cwd w1) = Some (Dir [])).
    { apply FsFacts.lookup_set_same. }
    assert (Hsame : for_each (x :: tl) (fun x => makedirs dir ;; open_write dir (nm x) (ct x)) w
                    = for_each (x :: tl) (fun x => makedirs dir ;; open_write dir (nm x) (ct x)) w1).
    { cbn [for_each]. repeat rewrite bind_apply.
      rewrite (makedirs_absent dir w Hdir), (makedirs_there dir w1 [] Hdir1).
      reflexivity. }
    rewrite Hsame, (for_each_makedirs_there dir nm ct _ w1 [] Hdir1).
    rewrite (for_each_open_write dir nm ct _ w1 [] Hdir1 Hclash).
    unfold w1. cbn [cwd stdout with_cwd]. now rewrite FsMore.set_set.
Qed.

Section ParseVbaMore.

Variable VBA_Parser : string -> result VBA_Parser_obj.

(** The loop of [parse_vba] is the loop over the files it writes. *)
Lemma parse_vba_loop (file_prefix : string) (modules : list vba_module) :
  forall w,
    for_each modules (fun m =>
      let '(_, _, filename, content) := m in
      let filtered := content_filtered content in
      if negb (is_empty filtered) then
        makedirs "src.vba" ;;
        open_write "src.vba" (file_prefix ++ "_" ++ filename)
                   (PyStr.join PyStr.newline filtered)
      else ret tt) w =
    for_each (written_modules file_prefix modules)
      (fun item => makedirs "src.vba" ;; open_write "src.vba" (fst item) (snd item)) w.
Proof.
  induction modules as [| [[[container stream] filename] content] tl IH]; intros w;
    [reflexivity |].
  cbn [for_each written_modules flat_map]. cbv zeta.
  destruct (negb (is_empty (content_filtered content))).
  - cbn [app for_each fst snd]. rewrite (bind_apply _ _ w).
    rewrite (bind_apply (makedirs "src.vba" ;; _) _ w).
    destruct (bind (makedirs "src.vba") _ w) as [[[] | e] w1]; [apply IH | reflexivity].
  - rewrite bind_apply. unfold ret at 1. cbn [app]. apply IH.
Qed.

Lemma parse_vba_as_writes (path file_prefix bytes : string) (parser : VBA_Parser_obj)
    (w : World) :
  Fs.read path (cwd w) = Ok bytes ->
  VBA_Parser bytes = Ok parser ->
  parse_vba VBA_Parser path file_prefix w =
  for_each (written_modules file_prefix (vba_modules parser))
    (fun item => makedirs "src.vba" ;; open_write "src.vba" (fst item) (snd item)) w.
Proof.
  intros Hread Hparse.
  rewrite (parse_vba_opened _ _ file_prefix _ _ _ Hread Hparse).
  apply parse_vba_loop.
Qed.

End ParseVbaMore.

(** X3: when the names [{file_prefix}_{filename}] of the modules that
    have lines left hold no separator, [src.vba] is not a regular file
    and none of these names is that of a sub-directory of it, [parse_vba]
    ends normally and prints nothing; if no module has a line left it
    changes nothing, otherwise
    [src.vba] holds, for each module that has lines left, the file
    [{file_prefix}_{filename}] with these lines joined by newlines.  When
    two modules have one file name the file holds the later one; the
    files of other names are as they were. *)
Theorem parse_vba_writes
    (VBA_Parser : string -> result VBA_Parser_obj)
    (path file_prefix bytes : string) (parser : VBA_Parser_obj) (w : World) :
  Fs.read path (cwd w) = Ok bytes ->
  VBA_Parser bytes = Ok parser ->
  plain_names (written_modules file_prefix (vba_modules parser)) = true ->
  not_a_file "src.vba" (cwd w) = true ->
  no_dir_clash (written_modules file_prefix (vba_modules parser))
               (dir_entries "src.vba" (cwd w)) = true ->
  let writes := written_modules file_prefix (vba_modules parser) in
  let files := write_files writes (dir_entries "src.vba" (cwd w)) in
  parse_vba VBA_Parser path file_prefix w =
    (Ok tt, if is_empty writes then w
            else {| cwd := Fs.set "src.vba" (Dir files) (cwd w); stdout := stdout w |})
  /\ forall name,
       Fs.lookup name files =
       match last_write name writes with
       | Some content => Some (File content)
       | None => Fs.lookup name (dir_entries "src.vba" (cwd w))
       end.
Proof.
  intros Hread Hparse _ Hfile Hclash writes files. split.
  - rewrite (parse_vba_as_writes _ _ file_prefix _ _ _ Hread Hparse). fold writes.
    destruct (is_empty writes) eqn:Hempty.
    + destruct writes; [reflexivity | discriminate].
    + rewrite (for_each_makedirs_open_write "src.vba" fst snd writes w Hempty Hfile).
      * unfold files. now rewrite map_ext with (g := fun x => x), map_id by now intros [].
      * now rewrite map_ext with (g := fun x => x), map_id by now intros [].
  - intros name. apply FsMore.lookup_write_files.
Qed.

Lemma parse_vba_writes_witness :
  parse_vba (parser_with_modules ["Sub a()"; attribute_vb_name_line; "Sub b()"]%string)
            "./book.xlsm" "book" one_workbook
  = (Ok tt, {| cwd := [("book.xlsm", File "PK");
                       ("src.vba", Dir [("book_Module1.bas", File "Sub b()")])];
               stdout := [] |}).
Proof.
  exact (proj1 (parse_vba_writes
                  (parser_with_modules ["Sub a()"; attribute_vb_name_line; "Sub b()"]%string)
                  "./book.xlsm" "book" "PK"
                  {| detect_vba_macros := true;
                     extract_all_macros :=
                       map (fun src => ("book.xlsm", "VBA/Module1", "Module1.bas", src))
                         ["Sub a()"; attribute_vb_name_line; "Sub b()"]%string |}
                  one_workbook eq_refl eq_refl eq_refl eq_refl eq_refl)).
Defined.

(** X4: when [src.vba] is a regular file and a module has a line
    left, [os.makedirs] raises [FileExistsError]; [parse_vba] lets it
    through and has changed nothing. *)
Theorem parse_vba_src_vba_is_file
    (VBA_Parser : string -> result VBA_Parser_obj)
    (path file_prefix bytes : string) (parser : VBA_Parser_obj) (w : World) :
  Fs.read path (cwd w) = Ok bytes ->
  VBA_Parser bytes = Ok parser ->
  not_a_file "src.vba" (cwd w) = false ->
  is_empty (written_modules file_prefix (vba_modules parser)) = false ->
  parse_vba VBA_Parser path file_prefix w = (Raise FileExistsError, w).
Proof.
  intros Hread Hparse Hfile Hne.
  rewrite (parse_vba_as_writes _ _ file_prefix _ _ _ Hread Hparse).
  destruct (written_modules file_prefix (vba_modules parser)) as [| item tl];
    [discriminate |].
  apply not_a_file_false in Hfile as [c Hc].
  cbn [for_each]. repeat rewrite bind_apply. unfold makedirs. now rewrite Hc.
Qed.

Lemma parse_vba_src_vba_is_file_witness :
  parse_vba (parser_with_modules ["Sub a()"%string]) "./book.xlsm" "book"
            {| cwd := [("book.xlsm", File "PK"); ("src.vba", File "x")]; stdout := [] |}
  = (Raise FileExistsError,
     {| cwd := [("book.xlsm", File "PK"); ("src.vba", File "x")]; stdout := [] |}).
Proof.
  exact (parse_vba_src_vba_is_file
           (parser_with_modules ["Sub a()"%string]) "./book.xlsm" "book" "PK"
           {| detect_vba_macros := true;
              extract_all_macros := [("book.xlsm", "VBA/Module1", "Module1.bas", "Sub a()")] |}
           {| cwd := [("book.xlsm", File "PK"); ("src.vba", File "x")]; stdout := [] |}
           eq_refl eq_refl eq_refl eq_refl).
Defined.

Lemma keeps_parse_vba (VBA_Parser : string -> result VBA_Parser_obj)
    (path file_prefix : string) :
  keeps (only_touches "src.vba") (parse_vba VBA_Parser path file_prefix).
Proof.
  pose proof (only_touches_refl "src.vba") as Hrefl.
  pose proof (only_touches_trans "src.vba") as Htrans.
  unfold parse_vba. apply keeps_bind; auto; [now apply keeps_open_with |].
  intros parser. apply keeps_for_each; auto.
  intros [[[container stream] filename] content]. cbv zeta.
  destruct (negb (is_empty (content_filtered content))); [| now apply keeps_ret].
  apply keeps_bind; auto; [apply only_touches_makedirs |].
  intros _. apply only_touches_open_write.
Qed.

(** X5: when the names [{file_prefix}_{filename}] of the modules that
    the parser gives and that have lines left hold no separator, then,
    however it ends, [parse_vba] prints nothing and leaves every entry
    of the working directory other than [src.vba] as it was. *)
Theorem parse_vba_only_touches_src_vba
    (VBA_Parser : string -> result VBA_Parser_obj) (path file_prefix : string)
    (w : World) :
  (forall bytes parser,
     Fs.read path (cwd w) = Ok bytes ->
     VBA_Parser bytes = Ok parser ->
     plain_names (written_modules file_prefix (vba_modules parser)) = true) ->
  let w' := snd (parse_vba VBA_Parser path file_prefix w) in
  stdout w' = stdout w /\
  Fs.remove "src.vba" (cwd w') = Fs.remove "src.vba" (cwd w) /\
  forall name, String.eqb name "src.vba" = false ->
               Fs.lookup name (cwd w') = Fs.lookup name (cwd w).
Proof.
  intros _. cbv zeta.
  destruct (parse_vba VBA_Parser path file_prefix w) as [r w'] eqn:E.
  apply keeps_parse_vba in E as [Hout Hrest]. cbn [snd]. repeat split; auto.
  intros name Hname. apply String.eqb_neq in Hname.
  rewrite <- (FsFacts.lookup_remove_other "src.vba" name (cwd w')) by congruence.
  rewrite Hrest. apply FsFacts.lookup_remove_other. congruence.
Qed.

Lemma parse_vba_only_touches_src_vba_witness :
  Fs.lookup "book.xlsm"
    (cwd (snd (parse_vba (parser_with_modules ["Sub a()"%string]) "./book.xlsm" "book"
                         one_workbook)))
  = Some (File "PK").
Proof.
  assert (Hplain : forall bytes parser,
            Fs.read "./book.xlsm" (cwd one_workbook) = Ok bytes ->
            parser_with_modules ["Sub a()"%string] bytes = Ok parser ->
            plain_names (written_modules "book" (vba_modules parser)) = true).
  { intros bytes parser _ H. injection H as <-. reflexivity. }
  exact (proj2 (proj2 (parse_vba_only_touches_src_vba
                         (parser_with_modules ["Sub a()"%string]) "./book.xlsm" "book"
                         one_workbook Hplain))
               "book.xlsm" eq_refl).
Defined.

(** X6: with [KEEP_NAME] false the lines kept of a module are the
    lines of its source that do not start with [Attribute], and only
    those; the [VB_Name] line goes with the others. *)
Theorem content_filtered_lines (content line : string) :
  In line (content_filtered content) <->
  In line (PyStr.splitlines content) /\ PyStr.startswith line "Attribute" = false.
Proof.
  unfold content_filtered. rewrite filter_In. unfold keep_line, KEEP_NAME.
  rewrite andb_false_r, orb_false_r, negb_true_iff. reflexivity.
Qed.

Lemma content_filtered_lines_witness :
  In "Sub f()" (content_filtered (attribute_vb_name_line ++ PyStr.newline ++ "Sub f()")).
Proof.
  apply (proj2 (content_filtered_lines
                  (attribute_vb_name_line ++ PyStr.newline ++ "Sub f()") "Sub f()")).
  split; [simpl; tauto | reflexivity].
Defined.

(** ** What [generate_text_reports] writes *)

Lemma NoDup_map_injective {A B} (f : A -> B) (l : list A) :
  (forall x y, f x = f y -> x = y) -> NoDup l -> NoDup (map f l).
Proof.
  intros Hinj. induction 1 as [| x tl Hx Hnd IH]; simpl; constructor; [| exact IH].
  intros Hin. apply in_map_iff in Hin as [y [Hy Hin]].
  apply Hinj in Hy. now subst.
Qed.

Lemma last_write_none (name : string) (writes : list (string * string)) :
  ~ In name (map fst writes) -> last_write name writes = None.
Proof.
  induction writes as [| [n c] tl IH]; simpl; intros H; [reflexivity |].
  rewrite IH by tauto. destruct (String.eqb_spec n name); [tauto | reflexivity].
Qed.

Lemma last_write_in (name content : string) (writes : list (string * string)) :
  NoDup (map fst writes) -> In (name, content) writes ->
  last_write name writes = Some content.
Proof.
  induction writes as [| [n c] tl IH]; simpl; intros Hnd Hin; [contradiction |].
  inversion Hnd as [| ? ? Hn Htl]; subst. destruct Hin as [Heq | Hin].
  - injection Heq as -> ->. rewrite (last_write_none name tl Hn).
    now rewrite String.eqb_refl.
  - now rewrite (IH Htl Hin).
Qed.

Lemma report_filename_inj (file_prefix : string) (c1 c2 : category) :
  report_filename file_prefix c1 = report_filename file_prefix c2 -> c1 = c2.
Proof.
  unfold report_filename. intros H. apply StrFacts.append_inv_head in H.
  destruct c1, c2; try reflexivity; discriminate.
Qed.

Lemma NoDup_categories : NoDup categories.
Proof.
  unfold categories.
  repeat (constructor; [simpl; intros H; repeat destruct H as [H | H]; discriminate || contradiction |]).
  constructor.
Qed.

Lemma NoDup_report_writes (file_prefix : string) (reports : Reports) :
  NoDup (map fst (report_writes file_prefix reports)).
Proof.
  unfold report_writes, items. rewrite !map_map. cbn [fst].
  apply NoDup_map_injective; [| apply NoDup_categories].
  intros c1 c2. apply report_filename_inj.
Qed.

(** X7: for one prefix the seven report file names are pairwise
    distinct, so no report of a workbook overwrites another report of the
    same workbook. *)
Theorem report_filenames_distinct (file_prefix : string) :
  NoDup (map (report_filename file_prefix) categories)
  /\ List.length (map (report_filename file_prefix) categories) = 7.
Proof.
  split; [| reflexivity].
  apply NoDup_map_injective; [| apply NoDup_categories].
  intros c1 c2. apply report_filename_inj.
Qed.

Lemma last_write_report (file_prefix : string) (reports : Reports) (c : category) :
  last_write (report_filename file_prefix c) (report_writes file_prefix reports)
  = Some (PyStr.join PyStr.newline (reports c) ++ PyStr.newline)%string.
Proof.
  apply last_write_in; [apply NoDup_report_writes |].
  unfold report_writes, items. rewrite map_map. cbn [fst snd].
  apply in_map_iff. exists c. split; [reflexivity |].
  destruct c; simpl; tauto.
Qed.

Lemma last_write_not_report (file_prefix name : string) (reports : Reports) :
  (forall c, String.eqb name (report_filename file_prefix c) = false) ->
  last_write name (report_writes file_prefix reports) = None.
Proof.
  intros H. apply last_write_none.
  unfold report_writes, items. rewrite !map_map. cbn [fst].
  intros Hin. apply in_map_iff in Hin as [c [Hc _]].
  specialize (H c). apply String.eqb_neq in H. congruence.
Qed.

(** X8: when the workbook is read and loaded twice, its reports
    are built, [excel_reports] is not a regular file and no report name
    is that of a sub-directory of it, [generate_text_reports] ends
    normally, prints its one line, and leaves in [excel_reports] each of
    the seven files [{file_prefix}_{category}.txt] holding the lines of
    its report, each ended by a newline, whatever the file held before;
    the other files of [excel_reports] are as they were. *)
Theorem generate_text_reports_writes
    (load_workbook : string -> bool -> result Workbook)
    (path file_prefix bytes : string) (workbook eval_workbook : Workbook)
    (reports : Reports) (w : World) :
  Fs.read path (cwd w) = Ok bytes ->
  load_workbook bytes false = Ok workbook ->
  load_workbook bytes true = Ok eval_workbook ->
  build_reports workbook eval_workbook = Ok reports ->
  not_a_file "excel_reports" (cwd w) = true ->
  no_dir_clash (report_writes file_prefix reports)
               (dir_entries "excel_reports" (cwd w)) = true ->
  let old := dir_entries "excel_reports" (cwd w) in
  let files := write_files (report_writes file_prefix reports) old in
  generate_text_reports load_workbook path file_prefix w =
    (Ok tt, {| cwd := Fs.set "excel_reports" (Dir files) (cwd w);
               stdout := stdout w ++ [reports_saved file_prefix] |})
  /\ (forall c,
        Fs.lookup (report_filename file_prefix c) files =
        Some (File (PyStr.join PyStr.newline (reports c) ++ PyStr.newline)))
  /\ (forall name,
        (forall c, String.eqb name (report_filename file_prefix c) = false) ->
        Fs.lookup name files = Fs.lookup name old).
Proof.
  intros Hread Hwb Hewb Hbuild Hfile Hclash old files. split; [| split].
  - assert (Hmk : exists w1,
               makedirs "excel_reports" w = (Ok tt, w1)
               /\ Fs.lookup "excel_reports" (cwd w1) = Some (Dir old)
               /\ Fs.read path (cwd w1) = Ok bytes
               /\ stdout w1 = stdout w
               /\ forall n, Fs.set "excel_reports" n (cwd w1) = Fs.set "excel_reports" n (cwd w)).
    { unfold old, dir_entries, not_a_file in *.
      destruct (Fs.lookup "excel_reports" (cwd w)) as [[c | es] |] eqn:Hdir;
        [discriminate | |].
      - exists w. rewrite (makedirs_there _ _ _ Hdir). auto.
      - exists (with_cwd w (Fs.set "excel_reports" (Dir []) (cwd w))).
        rewrite (makedirs_absent _ _ Hdir). cbn [cwd stdout with_cwd].
        repeat split.
        + apply FsFacts.lookup_set_same.
        + now apply FsMore.read_set_absent.
        + intros n. apply FsMore.set_set. }
    destruct Hmk as [w1 [Hmk [Hdir1 [Hread1 [Hout1 Hset1]]]]].
    unfold generate_text_reports. rewrite bind_apply, Hmk.
    rewrite bind_apply. unfold open_with at 1. rewrite Hread1, Hwb.
    rewrite bind_apply. unfold open_with at 1. rewrite Hread1, Hewb.
    rewrite bind_apply. unfold lift at 1. rewrite Hbuild.
    rewrite bind_apply.
    rewrite (for_each_open_write "excel_reports" fst
               (fun item => (PyStr.join PyStr.newline (snd item) ++ PyStr.newline)%string)
               (items file_prefix reports) w1 old Hdir1 Hclash).
    unfold print. cbn [cwd stdout]. rewrite Hset1, Hout1. reflexivity.
  - intros c. unfold files. rewrite FsMore.lookup_write_files.
    now rewrite last_write_report.
  - intros name Hname. unfold files. rewrite FsMore.lookup_write_files.
    now rewrite last_write_not_report.
Qed.

Lemma generate_text_reports_writes_witness :
  Fs.lookup "book_formulas_and_values.txt"
    (write_files
       (report_writes "book"
          (reports_of (build_reports (workbook_with_A1 (PStr "=1+2"))
                                     (workbook_with_A1 (PInt 3)))))
       (dir_entries "excel_reports" (tree_with_workbook "old")))
  = Some (File ("Sheet: Sheet1" ++ PyStr.newline ++ PyStr.repeat "-" 40 ++ PyStr.newline
                ++ "Cell A1: Value='=1+2', Type='Text'" ++ PyStr.newline)).
Proof.
  exact (proj1 (proj2 (generate_text_reports_writes load_formula_workbook
                         "./book.xlsx" "book" "PK"
                         (workbook_with_A1 (PStr "=1+2")) (workbook_with_A1 (PInt 3))
                         (reports_of (build_reports (workbook_with_A1 (PStr "=1+2"))
                                                    (workbook_with_A1 (PInt 3))))
                         {| cwd := tree_with_workbook "old"; stdout := [] |}
                         eq_refl eq_refl eq_refl eq_refl eq_refl eq_refl))
               Formulas_and_values).
Defined.

(** X9: [excel_reports] is made before the workbook is loaded:
    when there is none and [load_workbook] raises, the exception goes
    through, nothing is printed, and an empty [excel_reports] is left
    behind. *)
Theorem generate_text_reports_load_fails
    (load_workbook : string -> bool -> result Workbook)
    (path file_prefix bytes : string) (e : exn) (w : World) :
  Fs.read path (cwd w) = Ok bytes ->
  load_workbook bytes false = Raise e ->
  Fs.lookup "excel_reports" (cwd w) = None ->
  generate_text_reports load_workbook path file_prefix w =
    (Raise e, {| cwd := cwd w ++ [("excel_reports", Dir [])]; stdout := stdout w |}).
Proof.
  intros Hread Hload Habs. unfold generate_text_reports.
  rewrite bind_apply, (makedirs_absent _ _ Habs).
  rewrite bind_apply. unfold open_with at 1. cbn [cwd with_cwd].
  rewrite (FsMore.read_set_absent path "excel_reports" (Dir []) (cwd w) bytes Habs Hread).
  rewrite Hload. unfold with_cwd. f_equal. f_equal.
  clear Hread. induction (cwd w) as [| [k n] tl IH]; simpl in *; [reflexivity |].
  destruct (String.eqb k "excel_reports"); [discriminate |]. now rewrite IH.
Qed.

Lemma generate_text_reports_load_fails_witness :
  generate_text_reports load_corrupt_workbook "./book.xlsm" "book" one_workbook
  = (Raise (LibraryError "File is not a zip file"),
     {| cwd := [("book.xlsm", File "PK"); ("excel_reports", Dir [])]; stdout := [] |}).
Proof.
  exact (generate_text_reports_load_fails load_corrupt_workbook "./book.xlsm" "book" "PK"
           (LibraryError "File is not a zip file") one_workbook eq_refl eq_refl eq_refl).
Defined.

Lemma generate_text_reports_frame
    (load_workbook : string -> bool -> result Workbook) (path file_prefix : string)
    (w : World) :
  let out := generate_text_reports load_workbook path file_prefix w in
  Fs.remove "excel_reports" (cwd (snd out)) = Fs.remove "excel_reports" (cwd w)
  /\ stdout (snd out) =
     stdout w ++ match fst out with
                 | Ok _ => [reports_saved file_prefix]
                 | Raise _ => []
                 end.
Proof.
  cbv zeta.
  pose proof (only_touches_refl "excel_reports") as Hrefl.
  pose proof (only_touches_trans "excel_reports") as Htrans.
  unfold generate_text_reports. rewrite bind_apply.
  destruct (makedirs "excel_reports" w) as [[[] | e] w1] eqn:E1;
    apply only_touches_makedirs in E1 as [S1 C1].
  2:{ cbn [fst snd]. now rewrite app_nil_r. }
  rewrite bind_apply.
  destruct (open_with _ path w1) as [[workbook | e] w2] eqn:E2;
    apply (keeps_open_with _ Hrefl) in E2 as [S2 C2].
  2:{ cbn [fst snd]. rewrite app_nil_r. split; congruence. }
  rewrite bind_apply.
  destruct (open_with _ path w2) as [[eval_workbook | e] w3] eqn:E3;
    apply (keeps_open_with _ Hrefl) in E3 as [S3 C3].
  2:{ cbn [fst snd]. rewrite app_nil_r. split; congruence. }
  rewrite bind_apply. unfold lift.
  destruct (build_reports workbook eval_workbook) as [reports | e].
  2:{ cbn [fst snd]. rewrite app_nil_r. split; congruence. }
  rewrite bind_apply.
  destruct (for_each _ _ w3) as [[[] | e] w4] eqn:E4.
  - apply (keeps_for_each _ Hrefl Htrans) in E4 as [S4 C4].
    + unfold print. cbn [fst snd cwd stdout].
      split; [congruence | rewrite S4, S3, S2, S1; reflexivity].
    + intros item. apply only_touches_open_write.
  - apply (keeps_for_each _ Hrefl Htrans) in E4 as [S4 C4].
    + cbn [fst snd]. rewrite app_nil_r. split; congruence.
    + intros item. apply only_touches_open_write.
Qed.

(** X10: however it ends, [generate_text_reports] leaves every
    entry of the working directory other than [excel_reports] as it was;
    it prints its one line when it ends normally and nothing when it
    raises. *)
Theorem generate_text_reports_only_touches
    (load_workbook : string -> bool -> result Workbook) (path file_prefix : string)
    (w : World) :
  let out := generate_text_reports load_workbook path file_prefix w in
  Fs.remove "excel_reports" (cwd (snd out)) = Fs.remove "excel_reports" (cwd w)
  /\ (forall name, String.eqb name "excel_reports" = false ->
                   Fs.lookup name (cwd (snd out)) = Fs.lookup name (cwd w))
  /\ stdout (snd out) =
     stdout w ++ match fst out with
                 | Ok _ => [reports_saved file_prefix]
                 | Raise _ => []
                 end.
Proof.
  cbv zeta.
  destruct (generate_text_reports_frame load_workbook path file_prefix w) as [Hrest Hout].
  split; [exact Hrest | split; [| exact Hout]].
  intros name Hname. apply String.eqb_neq in Hname.
  rewrite <- (FsFacts.lookup_remove_other "excel_reports" name (cwd (snd _))) by congruence.
  rewrite Hrest. apply FsFacts.lookup_remove_other. congruence.
Qed.

Lemma generate_text_reports_only_touches_witness :
  Fs.lookup "book.xlsx"
    (cwd (snd (generate_text_reports load_formula_workbook "./book.xlsx" "book"
                 {| cwd := tree_with_workbook "old"; stdout := [] |})))
  = Some (File "PK").
Proof.
  exact (proj1 (proj2 (generate_text_reports_only_touches load_formula_workbook
                         "./book.xlsx" "book"
                         {| cwd := tree_with_workbook "old"; stdout := [] |}))
               "book.xlsx" eq_refl).
Defined.

(** ** The reports, sheet by sheet *)

Lemma find_sheet_in (name : string) (l : list (string * Worksheet)) :
  In name (map fst l) -> exists sheet, find_sheet name l = Some sheet.
Proof.
  induction l as [| [title sheet] tl IH]; simpl; [contradiction |].
  intros [-> | Hin].
  - rewrite String.eqb_refl. now exists sheet.
  - destruct (String.eqb title name); [now exists sheet | auto].
Qed.

Lemma has_sheets_own (wb : Workbook) : has_sheets wb (sheetnames wb) = true.
Proof.
  unfold has_sheets. apply forallb_forall. intros name Hin.
  destruct (find_sheet_in name (sheets wb) Hin) as [sheet ->]. reflexivity.
Qed.

Lemma sheet_reports_split (reports : Reports) (sheet_name : string)
    (sheet eval_sheet : Worksheet) (c : category) :
  sheet_reports reports sheet_name sheet eval_sheet c =
  reports c ++ sheet_section c sheet_name sheet.
Proof.
  destruct c; try reflexivity.
  change (reports Named_ranges = reports Named_ranges ++ []). now rewrite app_nil_r.
Qed.

Lemma for_sheets_category (workbook eval_workbook : Workbook) (names : list string) :
  forall reports final,
    for_sheets workbook eval_workbook names reports = Ok final ->
    forall c,
      final c =
      reports c ++
      flat_map (fun name => match getitem workbook name with
                            | Ok sheet => sheet_section c name sheet
                            | Raise _ => []
                            end) names.
Proof.
  induction names as [| name tl IH]; intros reports final H c; simpl in H.
  - injection H as <-. simpl. now rewrite app_nil_r.
  - simpl. destruct (getitem workbook name) as [sheet |]; [| discriminate].
    destruct (getitem eval_workbook name) as [eval_sheet |]; [| discriminate].
    rewrite (IH _ _ H c), sheet_reports_split, <- app_assoc. reflexivity.
Qed.

Lemma for_sheets_keyerror (workbook eval_workbook : Workbook)
    (before after : list string) (name : string) :
  has_sheets workbook (before ++ [name]) = true ->
  has_sheets eval_workbook before = true ->
  find_sheet name (sheets eval_workbook) = None ->
  forall reports,
    for_sheets workbook eval_workbook (before ++ name :: after) reports
    = Raise (KeyError name).
Proof.
  unfold has_sheets.
  induction before as [| b tl IH]; simpl; intros H1 H2 Hmiss reports; unfold getitem.
  - rewrite Hmiss. destruct (find_sheet name (sheets workbook)); [reflexivity | discriminate].
  - apply andb_true_iff in H1 as [Hn1 Ht1]. apply andb_true_iff in H2 as [Hn2 Ht2].
    destruct (find_sheet b (sheets workbook)); [| discriminate].
    destruct (find_sheet b (sheets eval_workbook)); [| discriminate].
    now apply IH.
Qed.

(** X12: when a sheet name of the workbook is not a title of the
    workbook loaded with [data_only=True], and the names before it are,
    the look-up [eval_workbook[sheet_name]] raises [KeyError] with that
    name and no report is built. *)
Theorem build_reports_keyerror (workbook eval_workbook : Workbook)
    (before after : list string) (name : string) :
  sheetnames workbook = before ++ name :: after ->
  has_sheets eval_workbook before = true ->
  find_sheet name (sheets eval_workbook) = None ->
  build_reports workbook eval_workbook = Raise (KeyError name).
Proof.
  intros Hnames Hbefore Hmiss. unfold build_reports. rewrite Hnames.
  apply for_sheets_keyerror; auto.
  pose proof (has_sheets_own workbook) as Hown. rewrite Hnames in Hown.
  unfold has_sheets in *. rewrite forallb_forall in *.
  intros x Hx. apply Hown. apply in_app_iff in Hx as [Hx | [<- | []]];
    apply in_app_iff; [now left | right; now left].
Qed.

Lemma build_reports_keyerror_witness :
  build_reports sample_workbook no_sheet_workbook = Raise (KeyError "Sheet1").
Proof.
  exact (build_reports_keyerror sample_workbook no_sheet_workbook [] ["Notes"%string]
           "Sheet1" eq_refl eq_refl eq_refl).
Defined.

Lemma build_reports_sections (workbook eval_workbook : Workbook) (reports : Reports) :
  build_reports workbook eval_workbook = Ok reports ->
  (forall c,
     category_eqb c Named_ranges = false ->
     reports c =
     flat_map (fun name => match getitem workbook name with
                           | Ok sheet => sheet_section c name sheet
                           | Raise _ => []
                           end) (sheetnames workbook))
  /\ reports Named_ranges =
     ("Workbook Named Ranges" ++ PyStr.newline ++ PyStr.repeat "-" 40)%string ::
     map (fun d => ("Name: " ++ fst d ++ ", Refers To: " ++ py_str (snd d))%string)
         (defined_names workbook).
Proof.
  intros H. unfold build_reports in H.
  pose proof (for_sheets_category _ _ _ _ _ H) as Hc. split.
  - intros c Hne. rewrite Hc. unfold extend, empty_reports. now rewrite Hne.
  - rewrite Hc. unfold extend, empty_reports. cbn [category_eqb category_name String.eqb].
    simpl app at 1.
    assert (Hnil : forall names,
              flat_map (fun name => match getitem workbook name with
                                    | Ok sheet => sheet_section Named_ranges name sheet
                                    | Raise _ => []
                                    end) names = []).
    { induction names as [| n tl IH]; simpl; [reflexivity |].
      rewrite IH. now destruct (getitem workbook n). }
    rewrite Hnil, app_nil_r. reflexivity.
Qed.

(** X13: each of the six reports by sheet is the sections of the
    sheets, one after the other in the order of [workbook.sheetnames];
    the named-ranges report is its header followed by one line per defined
    name and has nothing of the sheets. *)
Theorem build_reports_by_sheet (workbook eval_workbook : Workbook) (reports : Reports) :
  build_reports workbook eval_workbook = Ok reports ->
  (forall c,
     category_eqb c Named_ranges = false ->
     reports c =
     flat_map (fun name => match getitem workbook name with
                           | Ok sheet => sheet_section c name sheet
                           | Raise _ => []
                           end) (sheetnames workbook))
  /\ reports Named_ranges =
     ("Workbook Named Ranges" ++ PyStr.newline ++ PyStr.repeat "-" 40)%string ::
     map (fun d => ("Name: " ++ fst d ++ ", Refers To: " ++ py_str (snd d))%string)
         (defined_names workbook).
Proof.
  intros H. destruct (build_reports_sections _ _ _ H) as [Hsheets Hnames].
  split; [exact Hsheets | exact Hnames].
Qed.

Lemma build_reports_by_sheet_witness :
  reports_of (build_reports sample_workbook sample_workbook) Named_ranges
  = [("Workbook Named Ranges" ++ PyStr.newline ++ PyStr.repeat "-" 40)%string;
     "Name: Rate, Refers To: Sheet1!$B$1"%string;
     "Name: Total, Refers To: Sheet1!$B$2"%string].
Proof.
  exact (proj2 (build_reports_by_sheet sample_workbook sample_workbook
                  (reports_of (build_reports sample_workbook sample_workbook)) eq_refl)).
Defined.

(** X14: the workbook loaded with [data_only=True] has no part in
    any of the seven reports: with two of them, the reports that are built
    are the same. *)
Theorem build_reports_ignores_eval_workbook
    (workbook eval1 eval2 : Workbook) (reports1 reports2 : Reports) :
  build_reports workbook eval1 = Ok reports1 ->
  build_reports workbook eval2 = Ok reports2 ->
  forall c, reports1 c = reports2 c.
Proof.
  intros H1 H2 c. unfold build_reports in *.
  rewrite (for_sheets_category _ _ _ _ _ H1 c), (for_sheets_category _ _ _ _ _ H2 c).
  reflexivity.
Qed.

Lemma build_reports_ignores_eval_workbook_witness :
  reports_of (build_reports (workbook_with_A1 (PStr "=1+2")) (workbook_with_A1 (PInt 3)))
             Formulas_and_values
  = reports_of (build_reports (workbook_with_A1 (PStr "=1+2"))
                              (workbook_with_A1 (PStr "=1+2")))
               Formulas_and_values.
Proof.
  exact (build_reports_ignores_eval_workbook
           (workbook_with_A1 (PStr "=1+2")) (workbook_with_A1 (PInt 3))
           (workbook_with_A1 (PStr "=1+2")) _ _ eq_refl eq_refl Formulas_and_values).
Defined.

(** X15: for each sheet of the workbook, every report by sheet has
    the header of the sheet, and every item of the sheet has its line in
    its report: each cell its formulas-and-values, formatting and
    hyperlink lines, each merged range, data validation and conditional
    formatting rule its line. *)
Theorem report_lines_complete (workbook eval_workbook : Workbook) (reports : Reports)
    (sheet_name : string) (sheet : Worksheet) :
  build_reports workbook eval_workbook = Ok reports ->
  In sheet_name (sheetnames workbook) ->
  getitem workbook sheet_name = Ok sheet ->
  (forall c, category_eqb c Named_ranges = false ->
             In (sheet_header sheet_name) (reports c))
  /\ (forall cell line, In cell (cells sheet) ->
        (In line (formulas_cell_lines cell) -> In line (reports Formulas_and_values))
        /\ (In line (formatting_cell_lines cell) -> In line (reports Formatting))
        /\ (In line (hyperlink_cell_lines cell) -> In line (reports Hyperlinks)))
  /\ (forall merged_range, In merged_range (merged_cells_ranges sheet) ->
        In ("Merged Range: " ++ py_str merged_range)%string (reports Merged_cells))
  /\ (forall dv, In dv (data_validations sheet) ->
        In ("Range: " ++ py_str (sqref dv) ++ ", Formula: " ++ py_str (formula1 dv)
              ++ ", Allow Type: " ++ py_str (dv_type dv)
              ++ ", Criteria: " ++ py_str (operator dv))%string
           (reports Data_validations))
  /\ (forall rule, In rule (conditional_formatting sheet) ->
        In ("Rule: " ++ py_str (fst rule) ++ ", Applied to: " ++ py_str (snd rule))%string
           (reports Conditional_formatting)).
Proof.
  intros Hbuild Hname Hsheet.
  destruct (build_reports_sections _ _ _ Hbuild) as [Hby _].
  assert (Hsec : forall c line, category_eqb c Named_ranges = false ->
                   In line (sheet_section c sheet_name sheet) -> In line (reports c)).
  { intros c line Hc Hline. rewrite (Hby c Hc). apply in_flat_map.
    exists sheet_name. split; [exact Hname | now rewrite Hsheet]. }
  split; [| split; [| split; [| split]]].
  - intros c Hc. apply Hsec; [exact Hc |]. destruct c; try (now left). discriminate.
  - intros cell line Hcell. repeat split; intros Hline;
      (apply Hsec; [reflexivity |]); right; apply in_flat_map; now exists cell.
  - intros merged_range Hin. apply Hsec; [reflexivity |]. right.
    now apply (in_map (fun r => ("Merged Range: " ++ py_str r)%string)).
  - intros dv Hin. apply Hsec; [reflexivity |]. right.
    unfold sheet_section, sheet_reports, extend, empty_reports.
    cbn [category_eqb category_name String.eqb app].
    destruct (data_validations sheet) as [| d tl] eqn:E; [contradiction |].
    cbn [is_empty negb].
    now apply (in_map (fun dv => ("Range: " ++ py_str (sqref dv) ++ ", Formula: "
                                    ++ py_str (formula1 dv) ++ ", Allow Type: "
                                    ++ py_str (dv_type dv) ++ ", Criteria: "
                                    ++ py_str (operator dv))%string)).
  - intros rule Hin. apply Hsec; [reflexivity |]. right.
    unfold sheet_section, sheet_reports, extend, empty_reports.
    cbn [category_eqb category_name String.eqb app].
    destruct (conditional_formatting sheet) as [| d tl] eqn:E; [contradiction |].
    cbn [is_empty negb].
    now apply (in_map (fun rule => ("Rule: " ++ py_str (fst rule) ++ ", Applied to: "
                                      ++ py_str (snd rule))%string)).
Qed.

Lemma report_lines_complete_witness :
  In "Merged Range: A3:B4"%string
     (reports_of (build_reports sample_workbook sample_workbook) Merged_cells)
  /\ In (sheet_header "Notes")
        (reports_of (build_reports sample_workbook sample_workbook) Hyperlinks).
Proof.
  split.
  - exact (proj1 (proj2 (proj2
             (report_lines_complete sample_workbook sample_workbook
                (reports_of (build_reports sample_workbook sample_workbook))
                "Sheet1"
                sample_sheet
                eq_refl (or_introl eq_refl) eq_refl)))
             (PObj {| obj_str := "A3:B4"; obj_truthy := true |}) (or_introl eq_refl)).
  - exact (proj1
             (report_lines_complete sample_workbook sample_workbook
                (reports_of (build_reports sample_workbook sample_workbook))
                "Notes"
                empty_sheet
                eq_refl (or_intror (or_introl eq_refl)) eq_refl)
             Hyperlinks eq_refl).
Defined.

Lemma flat_map_length_le {A B C} (f : A -> list B) (g : A -> list C) (l : list A) :
  (forall x, List.length (f x) <= List.length (g x)) ->
  List.length (flat_map f l) <= List.length (flat_map g l).
Proof.
  intros H. induction l as [| x tl IH]; simpl; [lia |].
  rewrite !length_app. specialize (H x). lia.
Qed.

(** X16: a value that is true in a test is not [None], so the
    formatting report never has more lines than the formulas-and-values
    report. *)
Theorem formatting_report_shorter (workbook eval_workbook : Workbook) (reports : Reports) :
  build_reports workbook eval_workbook = Ok reports ->
  List.length (reports Formatting) <= List.length (reports Formulas_and_values)
  /\ forall cell, truthy (value cell) = true -> is_not_None (value cell) = true.
Proof.
  intros Hbuild. split.
  - destruct (build_reports_sections _ _ _ Hbuild) as [Hby _].
    rewrite (Hby Formatting eq_refl), (Hby Formulas_and_values eq_refl).
    apply flat_map_length_le. intros name.
    destruct (getitem workbook name) as [sheet |]; [| simpl; lia].
    change (S (List.length (flat_map formatting_cell_lines (cells sheet)))
            <= S (List.length (flat_map formulas_cell_lines (cells sheet)))).
    apply le_n_S, flat_map_length_le. intros cell.
    unfold formatting_cell_lines, formulas_cell_lines.
    destruct (value cell) as [| [] | n | f | s | o | q a]; simpl;
      repeat match goal with |- context [if ?b then _ else _] => destruct b end;
      simpl; lia.
  - intros cell. now destruct (value cell).
Qed.

Lemma formatting_report_shorter_witness :
  List.length (reports_of (build_reports sample_workbook sample_workbook) Formatting)
  <= List.length (reports_of (build_reports sample_workbook sample_workbook)
                             Formulas_and_values).
Proof.
  exact (proj1 (formatting_report_shorter sample_workbook sample_workbook
                  (reports_of (build_reports sample_workbook sample_workbook)) eq_refl)).
Defined.

(** ** Reports that stay *)

Lemma report_stays_refl (name : string) (w : World) : report_stays name w w.
Proof. intros H. exact H. Qed.

Lemma report_stays_trans (name : string) (w1 w2 w3 : World) :
  report_stays name w1 w2 -> report_stays name w2 w3 -> report_stays name w1 w3.
Proof. unfold report_stays. auto. Qed.

Lemma report_stays_print (name line : string) : keeps (report_stays name) (print line).
Proof. intros w r w' H. injection H as _ <-. intros Hx. exact Hx. Qed.

Lemma report_stays_makedirs (name dir : string) : keeps (report_stays name) (makedirs dir).
Proof.
  intros w r w' H. unfold makedirs in H.
  destruct (Fs.lookup dir (cwd w)) as [[c | sub] |] eqn:E;
    injection H as _ <-; try apply report_stays_refl.
  intros Hx. cbn [cwd with_cwd]. unfold report_exists, dir_entries in *.
  rewrite FsMore.lookup_set.
  destruct (String.eqb_spec dir "excel_reports") as [-> | Hne]; [| exact Hx].
  rewrite E in Hx. simpl in Hx. discriminate.
Qed.

Lemma report_stays_open_write (name dir n content : string) :
  keeps (report_stays name) (open_write dir n content).
Proof.
  intros w r w' H. unfold open_write in H.
  destruct (Fs.lookup dir (cwd w)) as [[c | es] |] eqn:E;
    try (injection H as _ <-; apply report_stays_refl).
  assert (Hset : report_stays name w
                   (with_cwd w (Fs.set dir (Dir (Fs.set n (File content) es)) (cwd w)))).
  { intros Hx. cbn [cwd with_cwd]. unfold report_exists, dir_entries in *.
    rewrite FsMore.lookup_set.
    destruct (String.eqb_spec dir "excel_reports") as [-> | Hne]; [| exact Hx].
    rewrite E in Hx. rewrite FsMore.lookup_set.
    destruct (String.eqb n name); [reflexivity | exact Hx]. }
  destruct (Fs.lookup n es) as [[c | sub] |];
    injection H as _ <-; try apply report_stays_refl; exact Hset.
Qed.

Section RunMore.

Variable VBA_Parser : string -> result VBA_Parser_obj.
Variable load_workbook : string -> bool -> result Workbook.

Lemma report_stays_parse_vba (name path file_prefix : string) :
  keeps (report_stays name) (parse_vba VBA_Parser path file_prefix).
Proof.
  pose proof (report_stays_refl name) as Hrefl.
  pose proof (report_stays_trans name) as Htrans.
  unfold parse_vba. apply keeps_bind; auto; [now apply keeps_open_with |].
  intros parser. apply keeps_for_each; auto.
  intros [[[container stream] filename] content]. cbv zeta.
  destruct (negb (is_empty (content_filtered content))); [| now apply keeps_ret].
  apply keeps_bind; auto; [apply report_stays_makedirs |].
  intros _. apply report_stays_open_write.
Qed.

Lemma report_stays_generate_text_reports (name path file_prefix : string) :
  keeps (report_stays name) (generate_text_reports load_workbook path file_prefix).
Proof.
  pose proof (report_stays_refl name) as Hrefl.
  pose proof (report_stays_trans name) as Htrans.
  unfold generate_text_reports.
  apply keeps_bind; auto; [apply report_stays_makedirs | intros _].
  apply keeps_bind; auto; [now apply keeps_open_with | intros workbook].
  apply keeps_bind; auto; [now apply keeps_open_with | intros eval_workbook].
  apply keeps_bind; auto; [now apply keeps_lift | intros reports].
  apply keeps_bind; auto; [| intros _; apply report_stays_print].
  apply keeps_for_each; auto. intros item. apply report_stays_open_write.
Qed.

Lemma report_stays_process_file (name root file : string) :
  keeps (report_stays name) (process_file VBA_Parser load_workbook root file).
Proof.
  pose proof (report_stays_refl name) as Hrefl.
  pose proof (report_stays_trans name) as Htrans.
  unfold process_file. destruct (is_excel_file file); [| now apply keeps_ret].
  apply keeps_bind; auto; [apply report_stays_print | intros _].
  apply keeps_bind; auto; [apply report_stays_parse_vba | intros _].
  apply report_stays_generate_text_reports.
Qed.

End RunMore.

(** What each round of a loop that ends normally has set up, and that
    the later rounds keep, holds at the end. *)
Lemma for_each_established {A} (Q : A -> World -> Prop) (body : A -> M unit)
    (l : list A) :
  (forall x y, keeps (fun w w' => Q y w -> Q y w') (body x)) ->
  (forall x w1 w2, body x w1 = (Ok tt, w2) -> Q x w2) ->
  forall w w', for_each l body w = (Ok tt, w') -> forall x, In x l -> Q x w'.
Proof.
  intros Hkeep Hset. induction l as [| a tl IH]; intros w w' H x Hin; [contradiction |].
  cbn [for_each] in H. apply bind_ok in H as [[] [w1 [Ha Htl]]].
  destruct Hin as [<- | Hin].
  - assert (Hk : keeps (fun w w' => Q a w -> Q a w') (for_each tl body)).
    { apply keeps_for_each; auto. } 
    apply (Hk _ _ _ Htl). eapply Hset, Ha.
  - eapply IH; eauto.
Qed.

Lemma open_write_report_exists (name content : string) (w w' : World) :
  open_write "excel_reports" name content w = (Ok tt, w') ->
  report_exists name (cwd w') = true.
Proof.
  intros H. apply open_write_overwrites in H as [es [Hdir Hfile]].
  unfold report_exists, dir_entries. now rewrite Hdir, Hfile.
Qed.

(** ** A whole run *)

(** The console after a loop that ends normally, each round of which
    adds its own lines. *)
Lemma for_each_stdout {A} (out : A -> list string) (body : A -> M unit) (l : list A) :
  (forall x w1 w2, body x w1 = (Ok tt, w2) -> stdout w2 = stdout w1 ++ out x) ->
  forall w w', for_each l body w = (Ok tt, w') ->
               stdout w' = stdout w ++ flat_map out l.
Proof.
  intros Hbody. induction l as [| a tl IH]; intros w w' H.
  - injection H as <-. simpl. now rewrite app_nil_r.
  - cbn [for_each] in H. apply bind_ok in H as [[] [w1 [Ha Htl]]].
    rewrite (IH _ _ Htl), (Hbody _ _ _ Ha). simpl. now rewrite app_assoc.
Qed.

Lemma flat_map_flat_map {A B C} (g : B -> list C) (h : A -> list B) (l : list A) :
  flat_map g (flat_map h l) = flat_map (fun x => flat_map g (h x)) l.
Proof.
  induction l as [| x tl IH]; simpl; [reflexivity |]. now rewrite flat_map_app, IH.
Qed.

Section RunReports.

Variable VBA_Parser : string -> result VBA_Parser_obj.
Variable load_workbook : string -> bool -> result Workbook.

Lemma generate_text_reports_ok (path file_prefix : string) (w w' : World) :
  generate_text_reports load_workbook path file_prefix w = (Ok tt, w') ->
  forall c, report_exists (report_filename file_prefix c) (cwd w') = true.
Proof.
  unfold generate_text_reports. intros H c.
  apply bind_ok in H as [[] [w1 [_ H]]].
  apply bind_ok in H as [workbook [w2 [_ H]]].
  apply bind_ok in H as [eval_workbook [w3 [_ H]]].
  apply bind_ok in H as [reports [w4 [_ H]]].
  apply bind_ok in H as [[] [w5 [Hloop Hprint]]].
  injection Hprint as <-. cbn [cwd].
  apply (for_each_established
           (fun item w => report_exists (fst item) (cwd w) = true) _ _
           (fun x y => report_stays_open_write (fst y) "excel_reports" (fst x) _)
           (fun x w1 w2 => open_write_report_exists (fst x) _ w1 w2)
           _ _ Hloop (report_filename file_prefix c, reports c)).
  unfold items. apply in_map_iff. exists c. split; [reflexivity |].
  destruct c; simpl; tauto.
Qed.

Lemma process_file_ok (root file : string) (w w' : World) :
  process_file VBA_Parser load_workbook root file w = (Ok tt, w') ->
  is_excel_file file = true ->
  (forall c, report_exists (report_filename (OsPath.splitext_root file) c) (cwd w') = true)
  /\ stdout w' = stdout w ++ ["Processing: " ++ OsPath.join root file;
                              reports_saved (OsPath.splitext_root file)]%string.
Proof.
  unfold process_file. intros H Hexcel. rewrite Hexcel in H.
  apply bind_ok in H as [[] [w1 [Hprint H]]].
  apply bind_ok in H as [[] [w2 [Hvba Hgen]]].
  split; [now apply (generate_text_reports_ok _ _ _ _ Hgen) |].
  injection Hprint as <-.
  apply keeps_parse_vba in Hvba as [Hout2 _]. cbn [stdout] in Hout2.
  destruct (generate_text_reports_frame load_workbook
              (OsPath.join root file) (OsPath.splitext_root file) w2) as [_ Hout].
  rewrite Hgen in Hout. cbn [fst snd] in Hout.
  rewrite Hout, Hout2, <- app_assoc. reflexivity.
Qed.

Lemma process_file_skip (root file : string) (w w' : World) (r : result unit) :
  process_file VBA_Parser load_workbook root file w = (r, w') ->
  is_excel_file file = false -> w' = w.
Proof.
  unfold process_file. intros H Hexcel. rewrite Hexcel in H. now injection H as _ <-.
Qed.

Lemma scan_ok (w w' : World) :
  scan VBA_Parser load_workbook w = (Ok tt, w') ->
  (forall root dirs files file c,
     In (root, dirs, files) (Fs.walk "." (cwd w)) ->
     In file files ->
     is_excel_file file = true ->
     report_exists (report_filename (OsPath.splitext_root file) c) (cwd w') = true)
  /\ stdout w' =
     stdout w ++
     flat_map (fun job => ["Processing: " ++ fst job; reports_saved (snd job)]%string)
              (excel_files (Fs.walk "." (cwd w))).
Proof.
  unfold scan. intros H. apply bind_ok in H as [walked [w0 [Hwalk Hloop]]].
  injection Hwalk as <- <-. split.
  - intros root dirs files file c Hitem Hfile Hexcel.
    refine (for_each_established
              (fun item w => forall file c, In file (snd item) -> is_excel_file file = true ->
                 report_exists (report_filename (OsPath.splitext_root file) c) (cwd w) = true)
              _ _ _ _ _ _ Hloop (root, dirs, files) Hitem file c Hfile Hexcel).
    + intros [[r1 d1] f1] y w1 res w2 Hbody Hq f c' Hf He.
      assert (Hk : keeps (report_stays (report_filename (OsPath.splitext_root f) c'))
                         (for_each f1 (process_file VBA_Parser load_workbook r1))).
      { apply keeps_for_each;
          [apply report_stays_refl | apply report_stays_trans |].
        intros x. apply report_stays_process_file. }
      apply (Hk _ _ _ Hbody). now apply Hq.
    + intros [[r1 d1] f1] w1 w2 Hbody f c' Hf He. cbn [snd] in Hf.
      refine (for_each_established
                (fun file w => is_excel_file file = true -> forall c,
                   report_exists (report_filename (OsPath.splitext_root file) c) (cwd w) = true)
                _ _ _ _ _ _ Hbody f Hf He c').
      * intros x y w3 res w4 Hx Hq Hy c0.
        apply (report_stays_process_file _ _ _ _ _ _ _ _ Hx). now apply Hq.
      * intros x w3 w4 Hx Hy. now apply (process_file_ok _ _ _ _ Hx Hy).
  - unfold excel_files.
    apply (for_each_stdout
             (fun item => flat_map
                (fun job => ["Processing: " ++ fst job; reports_saved (snd job)]%string)
                (flat_map (fun file =>
                             if is_excel_file file
                             then [(OsPath.join (fst (fst item)) file,
                                    OsPath.splitext_root file)]
                             else [])
                          (snd item)))) in Hloop.
    + rewrite Hloop. now rewrite flat_map_flat_map.
    + intros [[r1 d1] f1] w1 w2 Hbody. cbn [fst snd].
      apply (for_each_stdout
               (fun file => if is_excel_file file
                            then ["Processing: " ++ OsPath.join r1 file;
                                  reports_saved (OsPath.splitext_root file)]%string
                            else [])) in Hbody.
      * rewrite Hbody, flat_map_flat_map. f_equal.
        apply flat_map_ext. intros f. destruct (is_excel_file f); [| reflexivity].
        simpl. reflexivity.
      * intros x w3 w4 Hx. destruct (is_excel_file x) eqn:He.
        -- now apply (process_file_ok _ _ _ _ Hx He).
        -- rewrite (process_file_skip _ _ _ _ _ Hx He). now rewrite app_nil_r.
Qed.

Lemma run_ok (es : entries) (w' : World) :
  run VBA_Parser load_workbook es = (Ok tt, w') ->
  scan VBA_Parser load_workbook {| cwd := outputs_removed es; stdout := [] |} = (Ok tt, w').
Proof.
  rewrite run_cases.
  destruct (Fs.lookup "src.vba" es) as [[c | sub] |]; try discriminate;
    destruct (Fs.lookup "excel_reports" es) as [[c' | sub'] |]; try discriminate; auto.
Qed.

Lemma run_frame (es : entries) :
  outputs_removed (cwd (snd (run VBA_Parser load_workbook es))) = outputs_removed es.
Proof.
  rewrite run_cases.
  assert (Hscan : outputs_removed
                    (cwd (snd (scan VBA_Parser load_workbook
                                 {| cwd := outputs_removed es; stdout := [] |})))
                  = outputs_removed es).
  { destruct (scan _ _ _) as [r w'] eqn:E. apply frames_scan in E as [Hrest _ _].
    cbn [cwd snd] in *. now rewrite Hrest, outputs_removed_idem. }
  destruct (Fs.lookup "src.vba" es) as [[c | sub] |]; [reflexivity | |];
    (destruct (Fs.lookup "excel_reports" es) as [[c' | sub'] |]; [| exact Hscan | exact Hscan]);
    cbn [cwd snd]; unfold outputs_removed;
    now rewrite (FsFacts.remove_absent "src.vba" (Fs.remove "src.vba" es))
      by apply FsFacts.lookup_remove_same.
Qed.

End RunReports.

(** X17: after a run that ends normally, for every file of the tree
    (outside the two output directories) that the discovery filter
    selects, each of the seven report files named after its prefix is
    there in [excel_reports]. *)
Theorem run_reports_exist
    (VBA_Parser : string -> result VBA_Parser_obj)
    (load_workbook : string -> bool -> result Workbook)
    (es : entries) (w' : World) :
  run VBA_Parser load_workbook es = (Ok tt, w') ->
  forall root dirs files file c,
    In (root, dirs, files) (Fs.walk "." (outputs_removed es)) ->
    In file files ->
    is_excel_file file = true ->
    report_exists (report_filename (OsPath.splitext_root file) c) (cwd w') = true.
Proof.
  intros H. apply run_ok in H. apply scan_ok in H as [H _]. exact H.
Qed.

Lemma run_reports_exist_witness :
  report_exists "old_hyperlinks.txt"
    (cwd (snd (run parser_without_macros load_formula_workbook tree_with_two_workbooks)))
  = true.
Proof.
  exact (run_reports_exist parser_without_macros load_formula_workbook
           tree_with_two_workbooks
           (snd (run parser_without_macros load_formula_workbook tree_with_two_workbooks))
           eq_refl "./archive" [] ["old.xlsm"%string] "old.xlsm" Hyperlinks
           (or_intror (or_introl eq_refl)) (or_introl eq_refl) eq_refl).
Defined.

(** X18: the console of a run that ends normally holds, for each
    selected file in the order of the walk, the line [Processing: path]
    followed by the line that its reports are saved, and nothing else. *)
Theorem run_stdout
    (VBA_Parser : string -> result VBA_Parser_obj)
    (load_workbook : string -> bool -> result Workbook)
    (es : entries) (w' : World) :
  run VBA_Parser load_workbook es = (Ok tt, w') ->
  stdout w' =
  flat_map (fun job => ["Processing: " ++ fst job; reports_saved (snd job)]%string)
           (excel_files (Fs.walk "." (outputs_removed es))).
Proof.
  intros H. apply run_ok in H. apply scan_ok in H as [_ H]. exact H.
Qed.

Lemma run_stdout_witness :
  stdout (snd (run parser_without_macros load_formula_workbook tree_with_two_workbooks))
  = ["Processing: ./book.xlsx"; "Reports for book saved in 'excel_reports' folder.";
     "Processing: ./archive/old.xlsm"; "Reports for old saved in 'excel_reports' folder."]%string.
Proof.
  exact (run_stdout parser_without_macros load_formula_workbook tree_with_two_workbooks
           (snd (run parser_without_macros load_formula_workbook tree_with_two_workbooks))
           eq_refl).
Defined.

(** X19: however it ends, a run of the hook leaves every entry of
    the working directory other than [src.vba] and [excel_reports] as it
    was: the workbooks and the other files are never changed. *)
Theorem run_keeps_other_entries
    (VBA_Parser : string -> result VBA_Parser_obj)
    (load_workbook : string -> bool -> result Workbook)
    (es : entries) :
  let after := cwd (snd (run VBA_Parser load_workbook es)) in
  outputs_removed after = outputs_removed es
  /\ forall name,
       (String.eqb name "src.vba" || String.eqb name "excel_reports")%bool = false ->
       Fs.lookup name after = Fs.lookup name es.
Proof.
  cbv zeta. pose proof (run_frame VBA_Parser load_workbook es) as H.
  split; [exact H |]. intros name Hname.
  apply orb_false_iff in Hname as [Hv Hr].
  apply String.eqb_neq in Hv, Hr.
  assert (Hlookup : forall l, Fs.lookup name (outputs_removed l) = Fs.lookup name l).
  { intros l. unfold outputs_removed.
    rewrite !FsFacts.lookup_remove_other by congruence. reflexivity. }
  now rewrite <- Hlookup, H, Hlookup.
Qed.

Lemma run_keeps_other_entries_witness :
  Fs.lookup "archive"
    (cwd (snd (run parser_without_macros load_formula_workbook tree_with_two_workbooks)))
  = Some (Dir [("old.xlsm", File "PK")]).
Proof.
  exact (proj2 (run_keeps_other_entries parser_without_macros load_formula_workbook
                  tree_with_two_workbooks) "archive" eq_refl).
Defined.

(** ** Two more edges *)

Lemma last_char_append (a b : string) :
  last_char (a ++ b) = match last_char b with
                       | Some d => Some d
                       | None => last_char a
                       end.
Proof.
  induction a as [| c a IH]; simpl.
  - now destruct (last_char b).
  - rewrite IH. destruct (last_char b); [reflexivity |]. reflexivity.
Qed.

(** X20: a name the discovery filter selects ends with one of the
    lower-case letters b, s, m, a, t, x; so a name whose extension is in
    upper case ([.XLSX], [.XLS]) is never selected. *)
Theorem is_excel_file_last_char (file : string) (c : ascii) :
  is_excel_file file = true ->
  last_char file = Some c ->
  In c extension_endings.
Proof.
  intros Hsel Hlast. apply is_excel_file_suffix in Hsel as [stem [ext [Hext ->]]].
  rewrite last_char_append in Hlast. simpl in Hext.
  repeat (destruct Hext as [<- | Hext];
          [simpl in Hlast; injection Hlast as <-; simpl; tauto |]).
  contradiction.
Qed.

Lemma is_excel_file_last_char_witness : In "x"%char extension_endings.
Proof.
  exact (is_excel_file_last_char "data.xlsx" "x" eq_refl eq_refl).
Defined.


(** X21: when [excel_reports] is a regular file,
    [generate_text_reports] raises [FileExistsError] before anything is
    read, and has changed nothing. *)
Theorem generate_text_reports_reports_is_file
    (load_workbook : string -> bool -> result Workbook)
    (path file_prefix : string) (w : World) :
  not_a_file "excel_reports" (cwd w) = false ->
  generate_text_reports load_workbook path file_prefix w = (Raise FileExistsError, w).
Proof.
  intros H. apply not_a_file_false in H as [c Hc].
  unfold generate_text_reports. rewrite bind_apply. unfold makedirs. now rewrite Hc.
Qed.

Lemma generate_text_reports_reports_is_file_witness :
  generate_text_reports load_formula_workbook "./book.xlsx" "book"
    {| cwd := [("book.xlsx", File "PK"); ("excel_reports", File "x")]; stdout := [] |}
  = (Raise FileExistsError,
     {| cwd := [("book.xlsx", File "PK"); ("excel_reports", File "x")]; stdout := [] |}).
Proof.
  exact (generate_text_reports_reports_is_file load_formula_workbook "./book.xlsx" "book"
           {| cwd := [("book.xlsx", File "PK"); ("excel_reports", File "x")]; stdout := [] |}
           eq_refl).
Defined.
